(** * Announcements router of the High School Management System API

    A shallow embedding of [src/backend/routers/announcements.py]: the
    four FastAPI handlers ([get_announcements], [create_announcement],
    [update_announcement], [delete_announcement]) and their helper
    [serialize_announcement], over a model of the two MongoDB
    collections they talk to and of the parts of Python's [datetime]
    they call. *)

From Stdlib Require Import ZArith String Ascii List Lia.
From Stdlib Require Import DecimalString DecimalFacts DecimalPos DecimalN.
From stdpp Require Import base option gmap strings list sorting.

Local Open Scope Z_scope.

(** ** Python strings *)

Module Str.

(** [s.replace(old, new)] for a one-character [old], the only use
    the handlers make of [str.replace]. *)
Fixpoint replace (old : ascii) (new : string) (s : string) : string :=
  match s with
  | EmptyString => EmptyString
  | String c s' =>
      if Ascii.eqb c old then new +:+ replace old new s'
      else String c (replace old new s')
  end.

(** Truthiness of an [Optional[str]]: [None] and [""] are falsy. *)
Definition truthy (o : option string) : bool :=
  match o with
  | None => false
  | Some s => negb (String.eqb s "")
  end.

(** Code-point order on strings, which is also how MongoDB orders
    strings under its default (binary) collation. *)
Definition le (s1 s2 : string) : Prop := String.leb s1 s2 = true.

(** ["%0<w>d" % n] for [0 <= n]. *)
Definition zfill (w : nat) (n : Z) : string :=
  let digits := NilZero.string_of_uint (N.to_uint (Z.to_N n)) in
  let digits := if String.eqb digits "" then "0" else digits in
  String.string_of_list_ascii
    (List.repeat "0"%char (w - String.length digits))
  +:+ digits.

End Str.

(** ** Exceptions and results *)

Inductive exn : Type :=
| HTTPException (status_code : Z) (detail : string)
| ValueError (msg : string)
| TypeError (msg : string)
| AttributeError (msg : string)
| InvalidId
| DuplicateKeyError.

Inductive result (A : Type) : Type :=
| Ok (a : A)
| Raise (e : exn).
Arguments Ok {A} a.
Arguments Raise {A} e.

(** ** The part of [datetime] the handlers use *)

(** A [timedelta] is a number of microseconds; a [tzinfo] is the fixed
    UTC offset of a [datetime.timezone], [None] for a naive value. *)
Definition timedelta : Type := Z.

Record datetime : Type := mk_datetime {
  year : Z; month : Z; day : Z;
  hour : Z; minute : Z; second : Z; microsecond : Z;
  tzinfo : option timedelta
}.

Module Datetime.

Definition _DAYS_BEFORE_MONTH : list Z :=
  [0; 0; 31; 59; 90; 120; 151; 181; 212; 243; 273; 304; 334].
Definition _DAYS_IN_MONTH : list Z :=
  [0; 31; 28; 31; 30; 31; 30; 31; 31; 30; 31; 30; 31].

Definition _is_leap (y : Z) : bool :=
  (y mod 4 =? 0) && (negb (y mod 100 =? 0) || (y mod 400 =? 0)).

Definition _days_before_year (y : Z) : Z :=
  let y := y - 1 in y * 365 + y / 4 - y / 100 + y / 400.

Definition _days_before_month (y m : Z) : Z :=
  nth (Z.to_nat m) _DAYS_BEFORE_MONTH 0
  + (if (2 <? m) && _is_leap y then 1 else 0).

Definition _ymd2ord (y m d : Z) : Z :=
  _days_before_year y + _days_before_month y m + d.

Definition _DI400Y : Z := _days_before_year 401.
Definition _DI100Y : Z := _days_before_year 101.
Definition _DI4Y : Z := _days_before_year 5.

(** Proleptic Gregorian ordinal to (year, month, day). *)
Definition _ord2ymd (n : Z) : Z * Z * Z :=
  let n := n - 1 in
  let n400 := n / _DI400Y in let n := n mod _DI400Y in
  let y := n400 * 400 + 1 in
  let n100 := n / _DI100Y in let n := n mod _DI100Y in
  let n4 := n / _DI4Y in let n := n mod _DI4Y in
  let n1 := n / 365 in let n := n mod 365 in
  let y := y + n100 * 100 + n4 * 4 + n1 in
  if (n1 =? 4) || (n100 =? 4) then (y - 1, 12, 31)
  else
    let leapyear := (n1 =? 3) && (negb (n4 =? 24) || (n100 =? 3)) in
    let m := Z.shiftr (n + 50) 5 in
    let preceding :=
      nth (Z.to_nat m) _DAYS_BEFORE_MONTH 0
      + (if (2 <? m) && leapyear then 1 else 0) in
    if n <? preceding then
      let m := m - 1 in
      let preceding :=
        preceding
        - (nth (Z.to_nat m) _DAYS_IN_MONTH 0
           + (if (m =? 2) && leapyear then 1 else 0)) in
      (y, m, n - preceding + 1)
    else (y, m, n - preceding + 1).

Definition us_per_second : Z := 1000000.
Definition us_per_day : Z := 86400 * us_per_second.

(** The wall-clock fields as microseconds since 0001-01-01 minus one
    day (ordinal 0), ignoring [tzinfo]. *)
Definition wall_us (d : datetime) : Z :=
  (((_ymd2ord (year d) (month d) (day d) * 24 + hour d) * 60
    + minute d) * 60 + second d) * us_per_second + microsecond d.

(** The inverse direction, with the given [tzinfo] attached. *)
Definition of_wall_us (t : Z) (tz : option timedelta) : datetime :=
  let '(y, m, d) := _ord2ymd (t / us_per_day) in
  let r := t mod us_per_day in
  let s := r / us_per_second in
  {| year := y; month := m; day := d;
     hour := s / 3600; minute := (s / 60) mod 60; second := s mod 60;
     microsecond := r mod us_per_second; tzinfo := tz |}.

Fixpoint lex_compare (l1 l2 : list Z) : comparison :=
  match l1, l2 with
  | x :: l1', y :: l2' =>
      match Z.compare x y with
      | Eq => lex_compare l1' l2'
      | c => c
      end
  | [], [] => Eq
  | [], _ :: _ => Lt
  | _ :: _, [] => Gt
  end.

Definition fields (d : datetime) : list Z :=
  [year d; month d; day d; hour d; minute d; second d; microsecond d].

(** [datetime._cmp]: equal offsets (or two naive values) compare the
    fields; different offsets compare the instants; a naive and an
    aware value do not compare. *)
Definition _cmp (self other : datetime) : result comparison :=
  match tzinfo self, tzinfo other with
  | None, None => Ok (lex_compare (fields self) (fields other))
  | Some myoff, Some otoff =>
      if myoff =? otoff then Ok (lex_compare (fields self) (fields other))
      else Ok (Z.compare (wall_us self - myoff) (wall_us other - otoff))
  | _, _ =>
      Raise (TypeError "can't compare offset-naive and offset-aware datetimes")
  end.

(** [self <= other] *)
Definition le (self other : datetime) : result bool :=
  match _cmp self other with
  | Ok c => Ok (match c with Gt => false | _ => true end)
  | Raise e => Raise e
  end.

(** [self >= other] *)
Definition ge (self other : datetime) : result bool :=
  match _cmp self other with
  | Ok c => Ok (match c with Lt => false | _ => true end)
  | Raise e => Raise e
  end.

Definition _format_time (hh mm ss us : Z) : string :=
  Str.zfill 2 hh +:+ ":" +:+ Str.zfill 2 mm +:+ ":" +:+ Str.zfill 2 ss
  +:+ (if us =? 0 then "" else "." +:+ Str.zfill 6 us).

Definition _format_offset (off : option timedelta) : string :=
  match off with
  | None => ""
  | Some off =>
      let sign := if off <? 0 then "-" else "+" in
      let off := Z.abs off in
      let hh := off / (3600 * us_per_second) in
      let r := off mod (3600 * us_per_second) in
      let mm := r / (60 * us_per_second) in
      let r := r mod (60 * us_per_second) in
      let ss := r / us_per_second in
      let us := r mod us_per_second in
      sign +:+ Str.zfill 2 hh +:+ ":" +:+ Str.zfill 2 mm
      +:+ (if (ss =? 0) && (us =? 0) then ""
           else ":" +:+ Str.zfill 2 ss
                +:+ (if us =? 0 then "" else "." +:+ Str.zfill 6 us))
  end.

(** [self.isoformat()] *)
Definition isoformat (d : datetime) : string :=
  Str.zfill 4 (year d) +:+ "-" +:+ Str.zfill 2 (month d) +:+ "-"
  +:+ Str.zfill 2 (day d) +:+ "T"
  +:+ _format_time (hour d) (minute d) (second d) (microsecond d)
  +:+ _format_offset (tzinfo d).

(** Ordinal of 1970-01-01, times a day: the POSIX epoch on the
    [wall_us] scale. *)
Definition epoch_us : Z := _ymd2ord 1970 1 1 * us_per_day.

End Datetime.

(** ** Documents and queries *)

(** A field of a stored document as the queries see it: absent from
    the document, [null], or a string. *)
Inductive value : Type :=
| Missing
| Null
| Str (s : string).

(** An announcement document without its [_id], which is the key it
    is stored under. [start_date] holds what the caller passed
    ([None] is stored as [null]); documents written by other programs
    may lack the key. *)
Record document : Type := mk_document {
  message : string;
  start_date : value;
  expiration_date : string;
  created_by : string;
  created_at : string
}.

(** What a handler returns for one announcement: the document with
    [_id] replaced by the string field [id]. *)
Record announcement : Type := mk_announcement {
  id : string;
  fields : document
}.

#[global] Instance value_eq_dec : EqDecision value.
Proof. solve_decision. Defined.
#[global] Instance document_eq_dec : EqDecision document.
Proof. solve_decision. Defined.

Definition of_optional (o : option string) : value :=
  match o with
  | None => Null
  | Some s => Str s
  end.

Module Mongo.

(** [doc.get(key)] on the announcement keys. *)
Definition get (d : document) (key : string) : value :=
  if String.eqb key "message" then Str (message d)
  else if String.eqb key "start_date" then start_date d
  else if String.eqb key "expiration_date" then Str (expiration_date d)
  else if String.eqb key "created_by" then Str (created_by d)
  else if String.eqb key "created_at" then Str (created_at d)
  else Missing.

Inductive cond : Type :=
| Gte (v : string)        (* {"$gte": v} *)
| Lte (v : string)        (* {"$lte": v} *)
| Exists (b : bool)       (* {"$exists": b} *)
| IsNone.                 (* the field matched against None *)

Inductive query : Type :=
| All                                     (* {} *)
| And (qs : list query)                   (* {"$and": [...]} *)
| Or (qs : list query)                    (* {"$or": [...]} *)
| Field (key : string) (c : cond).        (* {key: c} *)

(** Comparison operators only match values of the operand's type
    (strings here), in binary string order; [None] matches a null
    and also a missing field. *)
Definition holds (c : cond) (v : value) : bool :=
  match c, v with
  | Gte x, Str s => String.leb x s
  | Lte x, Str s => String.leb s x
  | Gte _, _ | Lte _, _ => false
  | Exists b, Missing => negb b
  | Exists b, _ => b
  | IsNone, Str _ => false
  | IsNone, _ => true
  end.

Fixpoint matches (d : document) (q : query) : bool :=
  match q with
  | All => true
  | And qs => forallb (matches d) qs
  | Or qs => existsb (matches d) qs
  | Field key c => holds c (get d key)
  end.

(** Result objects of the write operations. *)
Record UpdateResult : Type := mk_UpdateResult {
  matched_count : Z;
  modified_count : Z
}.
Record DeleteResult : Type := mk_DeleteResult {
  deleted_count : Z
}.

End Mongo.

(** ** The handlers *)

Section Handlers.

(** [bson.ObjectId]: the identifier type, its constructor from a
    string ([None] when it raises [InvalidId]) and [str()]. *)
Context {ObjectId : Type} `{Countable ObjectId}.
Variable ObjectId_init : string → option ObjectId.
Variable ObjectId_str : ObjectId → string.

(** A document of the teachers collection, keyed by user name. *)
Context {Teacher : Type}.

(** [datetime.fromisoformat]: a [datetime], or the message of the
    [ValueError] it raises. *)
Variable fromisoformat : string → string + datetime.

(** Modelled from the spec: [src/backend/database.py] is not part of
    the sources; it provides the two collections of the document
    store, each keyed by the identifier [_id]. *)
Record database : Type := mk_database {
  announcements_collection : gmap ObjectId document;
  teachers_collection : gmap string Teacher
}.

(** What a request reads from outside the store: the clock (POSIX
    time in microseconds), the UTC offset of the server's local time
    zone, and the identifier the driver generates for an insert. *)
Record env : Type := mk_env {
  time_us : Z;
  local_utcoffset : timedelta;
  generated_id : ObjectId
}.

(** A handler reads the environment, may change the store, and
    returns or raises. *)
Definition M (A : Type) : Type := env → database → result A * database.

Definition ret {A} (a : A) : M A := λ _ db, (Ok a, db).
Definition raise {A} (e : exn) : M A := λ _ db, (Raise e, db).
Definition bind {A B} (m : M A) (k : A → M B) : M B :=
  λ ev db,
    match m ev db with
    | (Ok a, db') => k a ev db'
    | (Raise e, db') => (Raise e, db')
    end.
Definition lift {A} (r : result A) : M A := λ _ db, (r, db).

(** [try: body / except <handled>: handler]: [handles e] is the
    handler for the exceptions the clause catches. *)
Definition try_except {A} (body : M A) (handles : exn → option (M A)) : M A :=
  λ ev db,
    match body ev db with
    | (Ok a, db') => (Ok a, db')
    | (Raise e, db') =>
        match handles e with
        | Some h => h ev db'
        | None => (Raise e, db')
        end
    end.

Notation "x <- m ;; k" := (bind m (λ x, k))
  (at level 100, m at next level, right associativity).
Notation "m ;;; k" := (bind m (λ _, k))
  (at level 100, right associativity).

(** *** The clock *)

(** [datetime.utcnow()] at the clock reading of [ev] *)
Definition datetime_utcnow (ev : env) : datetime :=
  Datetime.of_wall_us (Datetime.epoch_us + time_us ev) None.

(** [datetime.now(tz)] at the clock reading of [ev]: local time for
    [tz = None], else the time at offset [tz], carrying [tz]. *)
Definition datetime_now (ev : env) (tz : option timedelta) : datetime :=
  let off := match tz with
             | None => local_utcoffset ev
             | Some off => off
             end in
  Datetime.of_wall_us (Datetime.epoch_us + time_us ev + off) tz.

Definition utcnow : M datetime := λ ev db, (Ok (datetime_utcnow ev), db).
Definition now (tz : option timedelta) : M datetime :=
  λ ev db, (Ok (datetime_now ev tz), db).

(** *** The collections *)

(** [teachers_collection.find_one({"_id": username})] *)
Definition teachers_find_one (username : string) : M (option Teacher) :=
  λ _ db, (Ok (teachers_collection db !! username), db).

(** [announcements_collection.find_one({"_id": oid})] *)
Definition find_one (oid : ObjectId) : M (option (ObjectId * document)) :=
  λ _ db, (Ok ((λ d, (oid, d)) <$> announcements_collection db !! oid), db).

(** Descending order on [created_at]. *)
Definition created_at_desc (a b : ObjectId * document) : Prop :=
  Str.le (created_at b.2) (created_at a.2).

#[global] Instance created_at_desc_dec a b : Decision (created_at_desc a b).
Proof. unfold created_at_desc, Str.le. apply _. Defined.

(** [list(announcements_collection.find(query).sort("created_at", -1))];
    the store leaves the order of documents with equal keys open,
    here it is the one the sort makes of the map's enumeration. *)
Definition find_sorted (q : Mongo.query) : M (list (ObjectId * document)) :=
  λ _ db,
    (Ok (merge_sort created_at_desc
           (filter (λ p, Mongo.matches p.2 q = true)
                   (map_to_list (announcements_collection db)))), db).

(** [announcements_collection.insert_one(doc)]: the driver adds the
    generated [_id]; the store refuses an [_id] it already holds. *)
Definition insert_one (d : document) : M ObjectId :=
  λ ev db,
    let oid := generated_id ev in
    match announcements_collection db !! oid with
    | Some _ => (Raise DuplicateKeyError, db)
    | None =>
        (Ok oid,
         {| announcements_collection := <[oid := d]> (announcements_collection db);
            teachers_collection := teachers_collection db |})
    end.

(** [announcements_collection.update_one({"_id": oid}, {"$set":
    {"message": m, "start_date": sd, "expiration_date": ed}})] *)
Definition update_one (oid : ObjectId) (m : string) (sd : value) (ed : string)
  : M Mongo.UpdateResult :=
  λ _ db,
    match announcements_collection db !! oid with
    | None => (Ok (Mongo.mk_UpdateResult 0 0), db)
    | Some d =>
        let d' := {| message := m; start_date := sd; expiration_date := ed;
                     created_by := created_by d; created_at := created_at d |} in
        (Ok (Mongo.mk_UpdateResult 1 (if decide (d' = d) then 0 else 1)),
         {| announcements_collection := <[oid := d']> (announcements_collection db);
            teachers_collection := teachers_collection db |})
    end.

(** [announcements_collection.delete_one({"_id": oid})] *)
Definition delete_one (oid : ObjectId) : M Mongo.DeleteResult :=
  λ _ db,
    match announcements_collection db !! oid with
    | None => (Ok (Mongo.mk_DeleteResult 0), db)
    | Some _ =>
        (Ok (Mongo.mk_DeleteResult 1),
         {| announcements_collection := delete oid (announcements_collection db);
            teachers_collection := teachers_collection db |})
    end.

(** *** [serialize_announcement] *)

Definition serialize_announcement (a : ObjectId * document) : announcement :=
  {| id := ObjectId_str a.1; fields := a.2 |}.

(** *** [get_announcements] *)

Definition get_announcements (active_only : bool) : M (list announcement) :=
  query <-
    (if active_only then
       t <- utcnow ;;
       let current_time := Datetime.isoformat t +:+ "Z" in
       ret (Mongo.And [
         Mongo.Field "expiration_date" (Mongo.Gte current_time);
         Mongo.Or [
           Mongo.Field "start_date" (Mongo.Exists false);
           Mongo.Field "start_date" Mongo.IsNone;
           Mongo.Field "start_date" (Mongo.Lte current_time)
         ]
       ])
     else ret Mongo.All) ;;
  announcements <- find_sorted query ;;
  ret (serialize_announcement <$> announcements).

(** The string [get_announcements] compares the stored dates with:
    [datetime.utcnow().isoformat() + "Z"]. *)
Definition current_time (ev : env) : string :=
  Datetime.isoformat (datetime_utcnow ev) +:+ "Z".

(** *** Pieces shared by the three writing handlers *)

(** [datetime.fromisoformat(s.replace("Z", "+00:00"))] *)
Definition parse_date (s : string) : M datetime :=
  match fromisoformat (Str.replace "Z" "+00:00" s) with
  | inr d => ret d
  | inl msg => raise (ValueError msg)
  end.

(** [except ValueError as e: raise HTTPException(400, f"Invalid date
    format: {str(e)}")] *)
Definition except_ValueError {A} (e : exn) : option (M A) :=
  match e with
  | ValueError msg =>
      Some (raise (HTTPException 400 ("Invalid date format: " +:+ msg)))
  | _ => None
  end.

(** [try: obj_id = ObjectId(announcement_id) / except Exception:
    raise HTTPException(400, "Invalid announcement ID")] *)
Definition parse_object_id (announcement_id : string) : M ObjectId :=
  try_except
    (match ObjectId_init announcement_id with
     | Some oid => ret oid
     | None => raise InvalidId
     end)
    (λ _, Some (raise (HTTPException 400 "Invalid announcement ID"))).

(** [not x] for the result of a [find_one]: [None] is falsy, a found
    document is a non-empty dict and so truthy. *)
Definition not_ {A} (x : option A) : bool :=
  match x with
  | None => true
  | Some _ => false
  end.

(** *** [create_announcement] *)

Definition create_announcement
    (message expiration_date : string) (start_date : option string)
    (teacher_username : string) : M announcement :=
  (* Validate teacher authentication *)
  teacher <- teachers_find_one teacher_username ;;
  if not_ teacher then raise (HTTPException 401 "Invalid teacher credentials")
  else
  (* Validate dates *)
  try_except
    (exp_date <- parse_date expiration_date ;;
     current <- now (tzinfo exp_date) ;;
     expired <- lift (Datetime.le exp_date current) ;;
     if expired : bool then
       raise (HTTPException 400 "Expiration date must be in the future")
     else
     if Str.truthy start_date then
       st_date <- parse_date (default "" start_date) ;;
       late <- lift (Datetime.ge st_date exp_date) ;;
       if late : bool then
         raise (HTTPException 400 "Start date must be before expiration date")
       else ret tt
     else ret tt)
    except_ValueError ;;;
  (* Create announcement *)
  t <- utcnow ;;
  let announcement :=
    {| message := message;
       start_date := of_optional start_date;
       expiration_date := expiration_date;
       created_by := teacher_username;
       created_at := Datetime.isoformat t +:+ "Z" |} in
  inserted_id <- insert_one announcement ;;
  ret {| id := ObjectId_str inserted_id; fields := announcement |}.

(** *** [update_announcement] *)

Definition update_announcement
    (announcement_id message expiration_date : string)
    (start_date : option string) (teacher_username : string) : M announcement :=
  (* Validate teacher authentication *)
  teacher <- teachers_find_one teacher_username ;;
  if not_ teacher then raise (HTTPException 401 "Invalid teacher credentials")
  else
  (* Validate announcement exists *)
  obj_id <- parse_object_id announcement_id ;;
  existing <- find_one obj_id ;;
  if not_ existing then
    raise (HTTPException 404 "Announcement not found")
  else
  (* Validate dates *)
  try_except
    (exp_date <- parse_date expiration_date ;;
     if Str.truthy start_date then
       st_date <- parse_date (default "" start_date) ;;
       late <- lift (Datetime.ge st_date exp_date) ;;
       if late : bool then
         raise (HTTPException 400 "Start date must be before expiration date")
       else ret tt
     else ret tt)
    except_ValueError ;;;
  (* Update announcement *)
  result <- update_one obj_id message (of_optional start_date) expiration_date ;;
  if (Mongo.modified_count result =? 0) && (Mongo.matched_count result =? 0) then
    raise (HTTPException 500 "Failed to update announcement")
  else
  (* Return updated announcement *)
  updated <- find_one obj_id ;;
  match updated with
  | Some a => ret (serialize_announcement a)
  | None => raise (AttributeError "'NoneType' object has no attribute 'pop'")
  end.

(** *** [delete_announcement] *)

Definition delete_announcement
    (announcement_id teacher_username : string) : M string :=
  (* Validate teacher authentication *)
  teacher <- teachers_find_one teacher_username ;;
  if not_ teacher then raise (HTTPException 401 "Invalid teacher credentials")
  else
  (* Validate announcement exists *)
  obj_id <- parse_object_id announcement_id ;;
  result <- delete_one obj_id ;;
  if Mongo.deleted_count result =? 0 then
    raise (HTTPException 404 "Announcement not found")
  else ret "Announcement deleted successfully".

(** *** Vocabulary of the statements about the handlers *)

(** [fromisoformat] after the replacement of ["Z"]. *)
Definition parse (s : string) : string + datetime :=
  fromisoformat (Str.replace "Z" "+00:00" s).

(** The query [get_announcements] builds for [active_only = True]
    when the current-time string is [ct]. *)
Definition active_query (ct : string) : Mongo.query :=
  Mongo.And [
    Mongo.Field "expiration_date" (Mongo.Gte ct);
    Mongo.Or [
      Mongo.Field "start_date" (Mongo.Exists false);
      Mongo.Field "start_date" Mongo.IsNone;
      Mongo.Field "start_date" (Mongo.Lte ct)
    ]
  ].

(** The store with the announcements collection replaced. *)
Definition with_announcements (db : database) (anns : gmap ObjectId document)
  : database :=
  {| announcements_collection := anns;
     teachers_collection := teachers_collection db |}.

(** The document [create_announcement] builds. *)
Definition created_document
    (m e : string) (s : option string) (t : string) (ev : env) : document :=
  {| message := m; start_date := of_optional s; expiration_date := e;
     created_by := t; created_at := current_time ev |}.

(** The document [update_one] leaves in place of [d]. *)
Definition updated_document
    (m e : string) (s : option string) (d : document) : document :=
  {| message := m; start_date := of_optional s; expiration_date := e;
     created_by := created_by d; created_at := created_at d |}.

(** The start date passes validation: it is falsy, or it parses to a
    datetime that compares strictly before [exp]. *)
Definition start_ok (s : option string) (exp : datetime) : Prop :=
  Str.truthy s = true →
  ∃ st, parse (default "" s) = inr st ∧ Datetime.ge st exp = Ok false.

(** The four ways in which the dates of a create request are bad. *)
Definition expiration_unparseable (e : string) : Prop :=
  ∃ msg, parse e = inl msg.

Definition expiration_not_future (e : string) (ev : env) : Prop :=
  ∃ exp, parse e = inr exp
         ∧ Datetime.le exp (datetime_now ev (tzinfo exp)) = Ok true.

Definition start_unparseable (s : option string) : Prop :=
  Str.truthy s = true ∧ ∃ msg, parse (default "" s) = inl msg.

Definition start_not_before (s : option string) (e : string) : Prop :=
  Str.truthy s = true
  ∧ ∃ st exp, parse (default "" s) = inr st ∧ parse e = inr exp
              ∧ Datetime.ge st exp = Ok true.

Definition bad_dates (e : string) (s : option string) (ev : env) : Prop :=
  expiration_unparseable e ∨ expiration_not_future e ev
  ∨ start_unparseable s ∨ start_not_before s e.

(** A truthy start date and the expiration date are both naive or
    both aware, so that Python can order them. *)
Definition comparable (s : option string) (e : string) : Prop :=
  Str.truthy s = true →
  ∀ st exp, parse (default "" s) = inr st → parse e = inr exp →
            (tzinfo st = None ↔ tzinfo exp = None).

End Handlers.

Arguments database ObjectId {_ _} Teacher.
Arguments env : clear implicits.
Arguments M ObjectId {_ _} Teacher A.

(** ** Zero-padded decimals *)

Module Dec.

Definition dchar (d : digits) : ascii :=
  match d with
  | d0 => "0" | d1 => "1" | d2 => "2" | d3 => "3" | d4 => "4"
  | d5 => "5" | d6 => "6" | d7 => "7" | d8 => "8" | d9 => "9"
  end%char.

Definition dval (d : digits) : N :=
  match d with
  | d0 => 0 | d1 => 1 | d2 => 2 | d3 => 3 | d4 => 4
  | d5 => 5 | d6 => 6 | d7 => 7 | d8 => 8 | d9 => 9
  end%N.

Definition dig (a : N) : digits :=
  match a with
  | 0 => d0 | 1 => d1 | 2 => d2 | 3 => d3 | 4 => d4
  | 5 => d5 | 6 => d6 | 7 => d7 | 8 => d8 | _ => d9
  end%N.

(** The [w] low decimal digits of [n], least significant first. *)
Fixpoint lu (w : nat) (n : N) : list digits :=
  match w with
  | O => []
  | S w' => dig (n mod 10) :: lu w' (n / 10)
  end.

(** [n] written with exactly [w] decimal digits. *)
Definition zstr (w : nat) (n : N) : string :=
  string_of_list_ascii (map dchar (rev (lu w n))).

End Dec.

(** ** Dates stored the way the clock is written *)

(** [x.isoformat() + "Z"], which is how [get_announcements] writes the
    current time. *)
Definition utc_string (x : datetime) : string := Datetime.isoformat x +:+ "Z".

(** A naive value with every field in the range [datetime] allows. *)
Definition naive_valid (x : datetime) : Prop :=
  1 ≤ year x ≤ 9999 ∧ 1 ≤ month x ≤ 12 ∧ 1 ≤ day x ≤ 31
  ∧ 0 ≤ hour x ≤ 23 ∧ 0 ≤ minute x ≤ 59 ∧ 0 ≤ second x ≤ 59
  ∧ 0 ≤ microsecond x ≤ 999999 ∧ tzinfo x = None.

Definition whole_second (x : datetime) : list Z :=
  [year x; month x; day x; hour x; minute x; second x].

(** Two values are written with the same precision (both with a
    fraction or both without), or lie in different seconds. *)
Definition same_precision_or_second_apart (x y : datetime) : Prop :=
  (microsecond x = 0 ↔ microsecond y = 0) ∨ whole_second x ≠ whole_second y.

(** ** An instance of the library parameters

    The handlers above are parametric in [datetime.fromisoformat] and
    in [bson.ObjectId]. The instance below is used to run them on
    concrete requests: the ISO grammar
    [YYYY-MM-DD[*HH[:MM[:SS[.fff[fff]]]][+HH:MM[:SS[.ffffff]]]]] and
    identifiers written as 24 hexadecimal digits. *)

Module Iso.

Definition digit (c : ascii) : option Z :=
  let n := Z.of_N (N_of_ascii c) in
  if (48 <=? n) && (n <=? 57) then Some (n - 48) else None.

Fixpoint digits (s : string) (acc : Z) : option Z :=
  match s with
  | EmptyString => Some acc
  | String c s' =>
      match digit c with
      | Some d => digits s' (acc * 10 + d)
      | None => None
      end
  end.

(** [int(s)] for a non-empty string of decimal digits. *)
Definition int (s : string) : option Z :=
  if String.eqb s "" then None else digits s 0.

Definition slice (i j : nat) (s : string) : string :=
  String.substring i (j - i) s.

Definition _parse_isoformat_date (dstr : string) : option (Z * Z * Z) :=
  if negb (Nat.eqb (String.length dstr) 10) then None
  else if negb (String.eqb (slice 4 5 dstr) "-") then None
  else if negb (String.eqb (slice 7 8 dstr) "-") then None
  else
    match int (slice 0 4 dstr), int (slice 5 7 dstr), int (slice 8 10 dstr) with
    | Some y, Some m, Some d => Some (y, m, d)
    | _, _, _ => None
    end.

(** [HH[:MM[:SS[.fff[fff]]]]], at most [n] of the three two-digit
    components still to read. *)
Fixpoint components (n : nat) (t : string) : option (list Z * string) :=
  match n with
  | O => Some ([], t)
  | S n' =>
      if Nat.ltb (String.length t) 2 then None
      else
        match int (slice 0 2 t) with
        | None => None
        | Some v =>
            let rest := slice 2 (String.length t) t in
            match n', rest with
            | O, _ | _, EmptyString => Some ([v], rest)
            | _, String c rest' =>
                if Ascii.eqb c ":" then
                  match components n' rest' with
                  | Some (vs, r) => Some (v :: vs, r)
                  | None => None
                  end
                else None
            end
        end
  end.

Definition _parse_hh_mm_ss_ff (tstr : string) : option (Z * Z * Z * Z) :=
  match components 3 tstr with
  | None => None
  | Some (vs, rest) =>
      let hh := nth 0 vs 0 in let mm := nth 1 vs 0 in let ss := nth 2 vs 0 in
      match rest with
      | EmptyString => Some (hh, mm, ss, 0)
      | String c frac =>
          if negb (Ascii.eqb c ".") then None
          else
            match String.length frac, int frac with
            | 3%nat, Some us => Some (hh, mm, ss, us * 1000)
            | 6%nat, Some us => Some (hh, mm, ss, us)
            | _, _ => None
            end
      end
  end.

(** Index of the first ["-"], else of the first ["+"]. *)
Definition tz_sign_index (tstr : string) : option nat :=
  match String.index 0 "-" tstr with
  | Some i => Some i
  | None => String.index 0 "+" tstr
  end.

Definition _parse_isoformat_time (tstr : string)
  : option (Z * Z * Z * Z * option timedelta) :=
  if Nat.ltb (String.length tstr) 2 then None
  else
    match tz_sign_index tstr with
    | None =>
        match _parse_hh_mm_ss_ff tstr with
        | Some t => Some (t, None)
        | None => None
        end
    | Some i =>
        let timestr := slice 0 i tstr in
        let tzstr := slice (i + 1) (String.length tstr) tstr in
        let len := String.length tzstr in
        if negb (Nat.eqb len 5 || Nat.eqb len 8 || Nat.eqb len 15) then None
        else
          match _parse_hh_mm_ss_ff timestr, _parse_hh_mm_ss_ff tzstr with
          | Some t, Some (h, m, s, us) =>
              let tzsign := if String.eqb (slice i (i + 1) tstr) "-" then -1 else 1 in
              let td := tzsign * ((h * 3600 + m * 60 + s) * Datetime.us_per_second + us) in
              if Z.abs td <? Datetime.us_per_day then Some (t, Some td) else None
          | _, _ => None
          end
    end.

(** The range checks of the [datetime] constructor. *)
Definition in_range (d : datetime) : bool :=
  (1 <=? year d) && (year d <=? 9999)
  && (1 <=? month d) && (month d <=? 12)
  && (1 <=? day d)
  && (day d <=? nth (Z.to_nat (month d)) Datetime._DAYS_IN_MONTH 0
                + (if (month d =? 2) && Datetime._is_leap (year d) then 1 else 0))
  && (0 <=? hour d) && (hour d <=? 23)
  && (0 <=? minute d) && (minute d <=? 59)
  && (0 <=? second d) && (second d <=? 59).

Definition fromisoformat (date_string : string) : string + datetime :=
  let invalid := inl ("Invalid isoformat string: '" +:+ date_string +:+ "'") in
  let dstr := slice 0 10 date_string in
  let tstr := slice 11 (String.length date_string) date_string in
  match _parse_isoformat_date dstr with
  | None => invalid
  | Some (y, m, d) =>
      let time_components :=
        if String.eqb tstr "" then Some (0, 0, 0, 0, None)
        else _parse_isoformat_time tstr in
      match time_components with
      | None => invalid
      | Some (hh, mm, ss, us, tz) =>
          let r := {| year := y; month := m; day := d;
                      hour := hh; minute := mm; second := ss;
                      microsecond := us; tzinfo := tz |} in
          if in_range r then inr r
          else inl "datetime field out of range"
      end
  end.

End Iso.

Module Oid.

(** The twelve bytes of an identifier, as a number. *)
Definition t : Type := N.

Definition hex_digit (c : ascii) : option N :=
  let n := N_of_ascii c in
  if (48 <=? n)%N && (n <=? 57)%N then Some (n - 48)%N
  else if (97 <=? n)%N && (n <=? 102)%N then Some (n - 87)%N
  else if (65 <=? n)%N && (n <=? 70)%N then Some (n - 55)%N
  else None.

Fixpoint of_hex (s : string) (acc : N) : option N :=
  match s with
  | EmptyString => Some acc
  | String c s' =>
      match hex_digit c with
      | Some d => of_hex s' (acc * 16 + d)%N
      | None => None
      end
  end.

(** [ObjectId(s)]: 24 hexadecimal digits. *)
Definition init (s : string) : option t :=
  if Nat.eqb (String.length s) 24 then of_hex s 0%N else None.

Definition hex_char (d : N) : ascii :=
  ascii_of_N (if (d <? 10)%N then d + 48 else d + 87)%N.

Fixpoint to_hex (w : nat) (n : N) (acc : string) : string :=
  match w with
  | O => acc
  | S w' => to_hex w' (n / 16)%N (String (hex_char (n mod 16)%N) acc)
  end.

(** [str(oid)] *)
Definition str (oid : t) : string := to_hex 24 oid "".

End Oid.

(** ** A small school, for running the handlers *)

Module Scenario.

(** 2025-01-01T00:00:00 UTC, on a server whose local time is UTC; the
    next identifier the driver generates ends in [2]. *)
Definition clock : env Oid.t :=
  {| time_us := 1735689600000000; local_utcoffset := 0; generated_id := 2%N |}.

(** The same server one microsecond before the next second: the clock
    reads 2025-01-01T00:00:00.999999. *)
Definition late_clock : env Oid.t :=
  {| time_us := 1735689600999999; local_utcoffset := 0; generated_id := 2%N |}.

(** One announcement, expiring at the very instant of [clock]. *)
Definition exam_id : Oid.t := 1%N.
Definition exam : document :=
  {| message := "Exam Friday";
     start_date := Null;
     expiration_date := "2025-01-01T00:00:00Z";
     created_by := "t1";
     created_at := "2024-12-01T09:00:00Z" |}.

(** Teachers are kept by user name; the record here is a display name. *)
Definition store : database Oid.t string :=
  {| announcements_collection := {[ exam_id := exam ]};
     teachers_collection := {[ "t1" := "Ms. Rivera" ]} |}.

Definition create (message expiration_date : string)
    (start_date : option string) (teacher_username : string)
  : M Oid.t string announcement :=
  create_announcement Oid.str Iso.fromisoformat
    message expiration_date start_date teacher_username.

Definition update (announcement_id message expiration_date : string)
    (start_date : option string) (teacher_username : string)
  : M Oid.t string announcement :=
  update_announcement Oid.init Oid.str Iso.fromisoformat
    announcement_id message expiration_date start_date teacher_username.

Definition delete_ (announcement_id teacher_username : string)
  : M Oid.t string string :=
  delete_announcement Oid.init announcement_id teacher_username.

Definition list_ (active_only : bool) : M Oid.t string (list announcement) :=
  get_announcements Oid.str active_only.

End Scenario.

(** * Properties *)

(** ** The library model on a few values *)

Example ord_1970 : Datetime._ymd2ord 1970 1 1 = 719163.
Proof. reflexivity. Qed.

Example ord_roundtrip :
  Datetime._ord2ymd (Datetime._ymd2ord 2024 2 29) = (2024, 2, 29)
  /\ Datetime._ord2ymd (Datetime._ymd2ord 2025 12 31) = (2025, 12, 31)
  /\ Datetime._ord2ymd (Datetime._ymd2ord 2000 3 1) = (2000, 3, 1).
Proof. repeat split; reflexivity. Qed.

Example isoformat_whole_second :
  Datetime.isoformat (Datetime.of_wall_us (Datetime.epoch_us + 1735689600000000) None)
  = "2025-01-01T00:00:00".
Proof. vm_compute. reflexivity. Qed.

Example isoformat_micro :
  Datetime.isoformat (Datetime.of_wall_us (Datetime.epoch_us + 1735689600000042) (Some 0))
  = "2025-01-01T00:00:00.000042+00:00".
Proof. vm_compute. reflexivity. Qed.

Example fromisoformat_aware :
  Iso.fromisoformat (Str.replace "Z" "+00:00" "2099-01-01T00:00:00Z")
  = inr (mk_datetime 2099 1 1 0 0 0 0 (Some 0)).
Proof. vm_compute. reflexivity. Qed.

Example fromisoformat_naive :
  Iso.fromisoformat "2098-06-30T12:30:15.250"
  = inr (mk_datetime 2098 6 30 12 30 15 250000 None).
Proof. vm_compute. reflexivity. Qed.

Example fromisoformat_offset :
  Iso.fromisoformat "2098-06-30T12:30:15-05:30"
  = inr (mk_datetime 2098 6 30 12 30 15 0 (Some (-19800000000))).
Proof. vm_compute. reflexivity. Qed.

Example fromisoformat_date_only :
  Iso.fromisoformat "2098-06-30" = inr (mk_datetime 2098 6 30 0 0 0 0 None).
Proof. vm_compute. reflexivity. Qed.

Example fromisoformat_rejects :
  Iso.fromisoformat "" = inl "Invalid isoformat string: ''"
  /\ Iso.fromisoformat "tomorrow" = inl "Invalid isoformat string: 'tomorrow'"
  /\ Iso.fromisoformat "2098-13-01" = inl "datetime field out of range".
Proof. vm_compute. repeat split; reflexivity. Qed.

Example oid_roundtrip :
  Oid.str <$> Oid.init "65A1b2c3d4e5f60718293a4b" = Some "65a1b2c3d4e5f60718293a4b"
  /\ Oid.init "not-an-id" = None.
Proof. vm_compute. split; reflexivity. Qed.

(** ** String order *)

Lemma ascii_compare_refl c : Ascii.compare c c = Eq.
Proof. unfold Ascii.compare. apply N.compare_refl. Qed.

Lemma string_compare_refl s : String.compare s s = Eq.
Proof. induction s as [|c s IH]; simpl; [done|]. by rewrite ascii_compare_refl. Qed.

Lemma string_leb_refl s : String.leb s s = true.
Proof. unfold String.leb. by rewrite string_compare_refl. Qed.

Lemma string_leb_trans s1 s2 s3 :
  String.leb s1 s2 = true → String.leb s2 s3 = true → String.leb s1 s3 = true.
Proof.
  unfold String.leb. revert s2 s3.
  induction s1 as [|a s1 IH]; intros [|b s2] [|c s3]; simpl; try done.
  unfold Ascii.compare.
  destruct (N.compare_spec (N_of_ascii a) (N_of_ascii b)) as [Hab|Hab|Hab];
    destruct (N.compare_spec (N_of_ascii b) (N_of_ascii c)) as [Hbc|Hbc|Hbc];
    try done; intros H1 H2.
  - rewrite Hab, Hbc, N.compare_refl. by eapply IH.
  - rewrite Hab. by apply N.compare_lt_iff in Hbc as ->.
  - rewrite <- Hbc. by apply N.compare_lt_iff in Hab as ->.
  - assert (N_of_ascii a < N_of_ascii c)%N as Hac by lia.
    by apply N.compare_lt_iff in Hac as ->.
Qed.

(** ** Zero-padded decimals and their order *)

Lemma dval_dig a : (a < 10)%N → Dec.dval (Dec.dig a) = a.
Proof.
  intros Ha.
  assert (a = 0 ∨ a = 1 ∨ a = 2 ∨ a = 3 ∨ a = 4 ∨ a = 5 ∨ a = 6 ∨ a = 7 ∨ a = 8 ∨ a = 9)%N
    as Hcases by lia.
  destruct Hcases as [->|[->|[->|[->|[->|[->|[->|[->|[->| ->]]]]]]]]]; reflexivity.
Qed.

Lemma of_lu_of_list l :
  Unsigned.of_lu (of_list l) = fold_right (λ d acc, Dec.dval d + 10 * acc)%N 0%N l.
Proof. induction l as [|d l IH]; [done|]. destruct d; cbn [of_list Unsigned.of_lu fold_right Dec.dval]; rewrite IH; lia. Qed.

Lemma lu_value w n :
  fold_right (λ d acc, Dec.dval d + 10 * acc)%N 0%N (Dec.lu w n) = (n mod 10 ^ N.of_nat w)%N.
Proof.
  revert n. induction w as [|w IH]; intros n.
  - cbn. by rewrite N.mod_1_r.
  - cbn [Dec.lu fold_right]. rewrite IH, dval_dig by (apply N.mod_lt; lia).
    rewrite Nat2N.inj_succ, N.pow_succ_r'.
    rewrite (N.Div0.mod_mul_r n 10 (10 ^ N.of_nat w)). lia.
Qed.

Lemma to_uint_lu w n :
  (n < 10 ^ N.of_nat w)%N →
  to_list (N.to_uint n) = lunorm (rev (Dec.lu w n)).
Proof.
  intros Hn.
  rewrite <- (to_list_of_list (Dec.lu w n)), <- rev_spec, <- unorm_spec. f_equal.
  rewrite <- DecimalN.Unsigned.to_of. f_equal.
  change (N.of_uint ?d) with (Pos.of_uint d).
  rewrite Unsigned.of_lu_rev, of_lu_of_list, lu_value. by rewrite N.mod_small.
Qed.

Lemma string_of_list_ascii_app l1 l2 :
  string_of_list_ascii (l1 ++ l2)
  = string_of_list_ascii l1 +:+ string_of_list_ascii l2.
Proof. induction l1 as [|c l1 IH]; [done|]. cbn. by rewrite IH. Qed.

Lemma length_string_of_list_ascii l :
  String.length (string_of_list_ascii l) = length l.
Proof. induction l as [|c l IH]; [done|]. cbn. by rewrite IH. Qed.

Lemma string_of_uint_to_list u :
  NilEmpty.string_of_uint u = string_of_list_ascii (map Dec.dchar (to_list u)).
Proof. induction u; cbn; by rewrite ?IHu. Qed.

Lemma length_lunorm l : l ≠ [] → (length (lunorm l) ≤ length l)%nat.
Proof.
  intros Hl. unfold lunorm.
  assert (length (lnzhead l) ≤ length l)%nat as Hle.
  { clear Hl. induction l as [|d l IH]; [done|]. destruct d; cbn in *; lia. }
  destruct (lnzhead l) eqn:E; [|done].
  destruct l; [done|]. cbn. lia.
Qed.

(** Padding the normalised digits back to the full width restores the
    leading zeros. *)
Lemma pad_lunorm l :
  l ≠ [] →
  string_of_list_ascii (repeat "0"%char (length l - length (lunorm l)))
  +:+ string_of_list_ascii (map Dec.dchar (lunorm l))
  = string_of_list_ascii (map Dec.dchar l).
Proof.
  induction l as [|d l IH]; [done|]. intros _.
  destruct d;
    try (unfold lunorm at 1 2; cbn [lnzhead]; by rewrite Nat.sub_diag).
  destruct l as [|d' l]; [done|].
  assert (lunorm (d0 :: d' :: l) = lunorm (d' :: l)) as -> by done.
  pose proof (length_lunorm (d' :: l) ltac:(done)) as Hlen.
  replace (length (d0 :: d' :: l) - length (lunorm (d' :: l)))%nat
    with (S (length (d' :: l) - length (lunorm (d' :: l))))
    by (cbn [length] in *; lia).
  change (map Dec.dchar (d0 :: d' :: l)) with ("0"%char :: map Dec.dchar (d' :: l)).
  cbn [repeat string_of_list_ascii].
  change (String ?c ?x +:+ ?y) with (String c (x +:+ y)). f_equal. by apply IH.
Qed.

Lemma length_lu w n : length (Dec.lu w n) = w.
Proof. revert n. induction w as [|w IH]; intros n; cbn; by rewrite ?IH. Qed.

Lemma lunorm_nonnil l : lunorm l ≠ [].
Proof. unfold lunorm. by destruct (lnzhead l). Qed.

Lemma zfill_zstr w z :
  (1 ≤ w)%nat → 0 ≤ z < 10 ^ Z.of_nat w →
  Str.zfill w z = Dec.zstr w (Z.to_N z).
Proof.
  intros Hw Hz. unfold Str.zfill, Dec.zstr.
  assert (Z.to_N z < 10 ^ N.of_nat w)%N as Hn.
  { apply N2Z.inj_lt. rewrite N2Z.inj_pow, Z2N.id, nat_N_Z by lia. apply Hz. }
  pose proof (to_uint_lu w (Z.to_N z) Hn) as Hl.
  assert (NilZero.string_of_uint (N.to_uint (Z.to_N z))
          = string_of_list_ascii (map Dec.dchar (lunorm (rev (Dec.lu w (Z.to_N z))))))
    as ->.
  { rewrite <- Hl, <- string_of_uint_to_list.
    destruct (N.to_uint (Z.to_N z)) eqn:E; try done.
    symmetry in Hl. by apply lunorm_nonnil in Hl. }
  set (l := rev (Dec.lu w (Z.to_N z))).
  assert (length l = w) as Hlen by (unfold l; by rewrite length_rev, length_lu).
  assert (l ≠ []) as Hne by (intros ->; cbn in Hlen; lia).
  assert (String.eqb (string_of_list_ascii (map Dec.dchar (lunorm l))) "" = false) as ->.
  { pose proof (lunorm_nonnil l). by destruct (lunorm l). }
  rewrite length_string_of_list_ascii, length_map, <- Hlen.
  by apply pad_lunorm.
Qed.

Lemma length_zstr w n : String.length (Dec.zstr w n) = w.
Proof.
  unfold Dec.zstr. by rewrite length_string_of_list_ascii, length_map, length_rev, length_lu.
Qed.

(** ** Comparing strings block by block *)

Lemma string_compare_app a b r r' :
  String.length a = String.length b →
  String.compare (a +:+ r) (b +:+ r')
  = match String.compare a b with
    | Eq => String.compare r r'
    | c => c
    end.
Proof.
  revert b. induction a as [|c a IH]; intros [|c' b] Hlen; try done.
  cbn in Hlen.
  change (String.compare (String c a +:+ r) (String c' b +:+ r'))
    with (match Ascii.compare c c' with
          | Eq => String.compare (a +:+ r) (b +:+ r')
          | o => o
          end).
  cbn [String.compare].
  destruct (Ascii.compare c c'); [|done..]. apply IH. lia.
Qed.

Lemma string_compare_app_same a r r' :
  String.compare (a +:+ r) (a +:+ r') = String.compare r r'.
Proof.
  rewrite string_compare_app by done.
  assert (String.compare a a = Eq) as ->; [|done].
  induction a as [|c a IH]; [done|]. cbn [String.compare].
  unfold Ascii.compare. by rewrite N.compare_refl.
Qed.

Lemma string_append_assoc a b c : (a +:+ b) +:+ c = a +:+ (b +:+ c).
Proof.
  induction a as [|x a IH]; [done|].
  change (String x ((a +:+ b) +:+ c) = String x (a +:+ (b +:+ c))). by rewrite IH.
Qed.

Lemma string_length_append a b :
  String.length (a +:+ b) = (String.length a + String.length b)%nat.
Proof.
  induction a as [|x a IH]; [done|].
  change (S (String.length (a +:+ b)) = S (String.length a + String.length b)).
  by rewrite IH.
Qed.

Lemma compare_dchar a b :
  (a < 10)%N → (b < 10)%N →
  Ascii.compare (Dec.dchar (Dec.dig a)) (Dec.dchar (Dec.dig b)) = N.compare a b.
Proof.
  intros Ha Hb. unfold Ascii.compare.
  assert (∀ d, N_of_ascii (Dec.dchar d) = (48 + Dec.dval d)%N) as Hd by (by intros []).
  rewrite !Hd, !dval_dig by done.
  destruct (N.compare_spec a b), (N.compare_spec (48 + a) (48 + b)); try done; lia.
Qed.

Lemma zstr_S w n :
  Dec.zstr (S w) n
  = Dec.zstr w (n / 10) +:+ String (Dec.dchar (Dec.dig (n mod 10))) "".
Proof.
  unfold Dec.zstr. cbn [Dec.lu rev]. rewrite !map_app, string_of_list_ascii_app.
  done.
Qed.

Lemma compare_zstr w a b :
  (a < 10 ^ N.of_nat w)%N → (b < 10 ^ N.of_nat w)%N →
  String.compare (Dec.zstr w a) (Dec.zstr w b) = N.compare a b.
Proof.
  revert a b. induction w as [|w IH]; intros a b Ha Hb.
  - cbn in Ha, Hb. assert (a = 0%N) as -> by lia. by assert (b = 0%N) as -> by lia.
  - rewrite Nat2N.inj_succ, N.pow_succ_r' in Ha, Hb.
    rewrite !zstr_S, string_compare_app by (by rewrite !length_zstr).
    rewrite IH by (apply N.Div0.div_lt_upper_bound; lia).
    cbn [String.compare].
    rewrite compare_dchar by (apply N.mod_lt; lia).
    pose proof (N.div_mod a 10 ltac:(lia)) as Hqa.
    pose proof (N.div_mod b 10 ltac:(lia)) as Hqb.
    pose proof (N.mod_lt a 10 ltac:(lia)) as Hra.
    pose proof (N.mod_lt b 10 ltac:(lia)) as Hrb.
    clear IH Ha Hb.
    generalize dependent (a / 10)%N. generalize dependent (a mod 10)%N.
    generalize dependent (b / 10)%N. generalize dependent (b mod 10)%N.
    intros rb Hrb qb Hqb ra Hra qa Hqa.
    destruct (N.compare_spec qa qb), (N.compare_spec ra rb),
      (N.compare_spec a b); try done; exfalso; lia.
Qed.

(** ["%0<w>d"] keeps the order of the numbers it fits. *)
Lemma zfill_length w z :
  (1 ≤ w)%nat → 0 ≤ z < 10 ^ Z.of_nat w → String.length (Str.zfill w z) = w.
Proof. intros Hw Hz. by rewrite zfill_zstr, length_zstr. Qed.

Lemma zfill_compare w x y :
  (1 ≤ w)%nat → 0 ≤ x < 10 ^ Z.of_nat w → 0 ≤ y < 10 ^ Z.of_nat w →
  String.compare (Str.zfill w x) (Str.zfill w y) = Z.compare x y.
Proof.
  intros Hw Hx Hy. rewrite !zfill_zstr by done.
  rewrite compare_zstr, <- Z2N.inj_compare by
    first [lia | apply N2Z.inj_lt; rewrite N2Z.inj_pow, Z2N.id, nat_N_Z by lia; lia].
  done.
Qed.

(** ** The order of dates written the way the clock is written *)

Lemma utc_string_compare x y :
  naive_valid x → naive_valid y → same_precision_or_second_apart x y →
  String.compare (utc_string x) (utc_string y)
  = Datetime.lex_compare (Datetime.fields x) (Datetime.fields y).
Proof.
  intros (HY & HM & HD & Hh & Hm & Hs & Hu & Hz) (HY' & HM' & HD' & Hh' & Hm' & Hs' & Hu' & Hz') Hagree.
  unfold utc_string, Datetime.isoformat, Datetime._format_time.
  rewrite Hz, Hz'. cbn [Datetime._format_offset].
  rewrite !string_append_assoc.
  assert (∀ w v v', (1 ≤ w ≤ 6)%nat → 0 ≤ v < 10 ^ Z.of_nat w → 0 ≤ v' < 10 ^ Z.of_nat w →
            ∀ r r', String.compare (Str.zfill w v +:+ r) (Str.zfill w v' +:+ r')
                    = match Z.compare v v' with
                      | Eq => String.compare r r'
                      | c => c
                      end) as Hblock.
  { intros w v v' Hw Hv Hv' r r'.
    rewrite string_compare_app by (rewrite !zfill_length by lia; done).
    by rewrite zfill_compare by lia. }
  rewrite Hblock by (cbn; lia). rewrite (string_compare_app_same "-").
  rewrite Hblock by (cbn; lia). rewrite (string_compare_app_same "-").
  rewrite Hblock by (cbn; lia). rewrite (string_compare_app_same "T").
  rewrite Hblock by (cbn; lia). rewrite (string_compare_app_same ":").
  rewrite Hblock by (cbn; lia). rewrite (string_compare_app_same ":").
  rewrite Hblock by (cbn; lia).
  cbn [Datetime.lex_compare Datetime.fields].
  destruct (Z.compare_spec (year x) (year y)) as [EY| |]; [|done..].
  destruct (Z.compare_spec (month x) (month y)) as [EM| |]; [|done..].
  destruct (Z.compare_spec (day x) (day y)) as [ED| |]; [|done..].
  destruct (Z.compare_spec (hour x) (hour y)) as [Eh| |]; [|done..].
  destruct (Z.compare_spec (minute x) (minute y)) as [Em| |]; [|done..].
  destruct (Z.compare_spec (second x) (second y)) as [Es| |]; [|done..].
  destruct Hagree as [Hprec|Hne];
    [|destruct Hne; unfold whole_second; congruence].
  destruct (Z.eqb_spec (microsecond x) 0) as [Hx0|Hx0],
           (Z.eqb_spec (microsecond y) 0) as [Hy0|Hy0]; try tauto.
  - rewrite Hx0, Hy0. done.
  - cbv iota. rewrite !string_append_assoc, (string_compare_app_same ".").
    rewrite Hblock by (cbn; lia).
    by destruct (Z.compare (microsecond x) (microsecond y)).
Qed.

Lemma utc_string_leb x y :
  naive_valid x → naive_valid y → same_precision_or_second_apart x y →
  String.leb (utc_string x) (utc_string y) = true ↔ Datetime.le x y = Ok true.
Proof.
  intros Hx Hy Hxy. unfold String.leb, Datetime.le, Datetime._cmp.
  rewrite utc_string_compare by done.
  destruct Hx as (_&_&_&_&_&_&_& ->), Hy as (_&_&_&_&_&_&_& ->).
  destruct (Datetime.lex_compare _ _); naive_solver.
Qed.

(** ** Facts on [datetime] comparison *)

Lemma tzinfo_of_wall_us t tz : tzinfo (Datetime.of_wall_us t tz) = tz.
Proof. unfold Datetime.of_wall_us. by destruct (Datetime._ord2ymd _) as [[??]?]. Qed.

(** The calendar arithmetic and the formatting of the clock stay folded
    in the proofs about the handlers. *)
Opaque Datetime.of_wall_us Datetime.isoformat Datetime.wall_us.

Lemma cmp_raises a b e :
  Datetime._cmp a b = Raise e →
  e = TypeError "can't compare offset-naive and offset-aware datetimes"
  ∧ (tzinfo a = None ↔ tzinfo b ≠ None).
Proof.
  unfold Datetime._cmp. repeat case_match; intros; simplify_eq; naive_solver.
Qed.

Lemma cmp_same_tzinfo a b :
  tzinfo a = tzinfo b → ∃ c, Datetime._cmp a b = Ok c.
Proof.
  unfold Datetime._cmp. intros ->. destruct (tzinfo b); [|by eauto].
  rewrite Z.eqb_refl. eauto.
Qed.

Lemma ge_raises a b e :
  Datetime.ge a b = Raise e →
  e = TypeError "can't compare offset-naive and offset-aware datetimes".
Proof.
  unfold Datetime.ge. destruct (Datetime._cmp a b) eqn:E; [done|].
  intros [= <-]. by apply cmp_raises in E as [-> _].
Qed.

Lemma le_same_tzinfo a b : tzinfo a = tzinfo b → ∃ r, Datetime.le a b = Ok r.
Proof.
  intros [c Hc]%cmp_same_tzinfo. unfold Datetime.le. rewrite Hc. eauto.
Qed.

Section Properties.

Context {ObjectId : Type} `{Countable ObjectId}.
Variable ObjectId_init : string → option ObjectId.
Variable ObjectId_str : ObjectId → string.
Context {Teacher : Type}.
Variable fromisoformat : string → string + datetime.

#[local] Abbreviation create := (create_announcement ObjectId_str (Teacher:=Teacher) fromisoformat).
#[local] Abbreviation update :=
  (update_announcement ObjectId_init ObjectId_str (Teacher:=Teacher) fromisoformat).
#[local] Abbreviation delete_ := (delete_announcement ObjectId_init (Teacher:=Teacher)).
#[local] Abbreviation list_ := (get_announcements ObjectId_str (Teacher:=Teacher)).
#[local] Abbreviation serialize := (serialize_announcement ObjectId_str).

Implicit Types (ev : env ObjectId) (db : database ObjectId Teacher).
Implicit Types (oid : ObjectId) (d : document) (a : announcement).

Ltac run :=
  cbv [create_announcement update_announcement delete_announcement get_announcements
       bind ret raise lift try_except teachers_find_one find_one find_sorted
       parse_object_id parse_date parse start_ok now utcnow insert_one update_one delete_one
       except_ValueError not_] in *;
  cbn [fst snd] in *.

Lemma tzinfo_now ev tz : tzinfo (datetime_now ev tz) = tz.
Proof. unfold datetime_now. by rewrite tzinfo_of_wall_us. Qed.

Lemma le_now e ev : ∃ r, Datetime.le e (datetime_now ev (tzinfo e)) = Ok r.
Proof. apply le_same_tzinfo. by rewrite tzinfo_now. Qed.

(** Kills the branches in which a comparison raised something it cannot. *)
Ltac absurd_cmp :=
  match goal with
  | Hc : Datetime.ge _ _ = Raise _ |- _ => apply ge_raises in Hc; simplify_eq
  | Hc : Datetime.le ?e (datetime_now ?ev (tzinfo ?e)) = Raise _ |- _ =>
      destruct (le_now e ev) as [? ?]; congruence
  end.

(** Case analysis on the innermost scrutinee of the goal, so that the
    handler is followed in program order. *)
Ltac innermost x :=
  lazymatch x with
  | context [match ?y with _ => _ end] => innermost y
  | _ => destruct x eqn:?
  end.
Ltac step :=
  match goal with
  | |- context [match ?x with _ => _ end] => innermost x
  end; cbn [fst snd].
Ltac paths := repeat step; intros; simplify_eq; try done; try absurd_cmp; try done.


Lemma create_unauthorized m e s t ev db :
  teachers_collection db !! t = None →
  create m e s t ev db = (Raise (HTTPException 401 "Invalid teacher credentials"), db).
Proof. intros Ht. run. by rewrite Ht. Qed.

Lemma update_unauthorized i m e s t ev db :
  teachers_collection db !! t = None →
  update i m e s t ev db = (Raise (HTTPException 401 "Invalid teacher credentials"), db).
Proof. intros Ht. run. by rewrite Ht. Qed.

Lemma delete_unauthorized i t ev db :
  teachers_collection db !! t = None →
  delete_ i t ev db = (Raise (HTTPException 401 "Invalid teacher credentials"), db).
Proof. intros Ht. run. by rewrite Ht. Qed.

Lemma create_401 m e s t ev db dt :
  (create m e s t ev db).1 = Raise (HTTPException 401 dt) →
  teachers_collection db !! t = None.
Proof.
  run. destruct (teachers_collection db !! t) eqn:Ht; [|done].
  paths.
Qed.

Lemma update_401 i m e s t ev db dt :
  (update i m e s t ev db).1 = Raise (HTTPException 401 dt) →
  teachers_collection db !! t = None.
Proof.
  run. destruct (teachers_collection db !! t) eqn:Ht; [|done].
  paths.
Qed.

Lemma delete_401 i t ev db dt :
  (delete_ i t ev db).1 = Raise (HTTPException 401 dt) →
  teachers_collection db !! t = None.
Proof.
  run. destruct (teachers_collection db !! t) eqn:Ht; [|done].
  paths.
Qed.

(** C3. Create, update and delete fail with Unauthorized (401) exactly
    when the teachers collection has no record for [teacher_username],
    whatever the other inputs are: the teacher check comes first. *)
Theorem C3_unauthorized_iff_no_teacher t ev db :
  (∀ m e s,
     (∃ dt, (create m e s t ev db).1 = Raise (HTTPException 401 dt))
     ↔ teachers_collection db !! t = None)
  ∧ (∀ i m e s,
       (∃ dt, (update i m e s t ev db).1 = Raise (HTTPException 401 dt))
       ↔ teachers_collection db !! t = None)
  ∧ (∀ i,
       (∃ dt, (delete_ i t ev db).1 = Raise (HTTPException 401 dt))
       ↔ teachers_collection db !! t = None).
Proof.
  split_and!; intros; (split; [intros [dt Hr]|intros Ht]).
  - by eapply create_401.
  - rewrite create_unauthorized by done. eauto.
  - by eapply update_401.
  - rewrite update_unauthorized by done. eauto.
  - by eapply delete_401.
  - rewrite delete_unauthorized by done. eauto.
Qed.

(** *** The list operation *)

Lemma filter_all {A} (P : A → Prop) `{∀ x, Decision (P x)} (l : list A) :
  (∀ x, P x) → filter P l = l.
Proof.
  intros HP. induction l as [|x l IH]; [done|].
  by rewrite filter_cons_True, IH.
Qed.

Lemma list_unfold b ev db :
  list_ b ev db
  = (Ok (serialize <$>
           merge_sort created_at_desc
             (filter (λ p : ObjectId * document, Mongo.matches p.2
                             (if b then active_query (current_time ev) else Mongo.All) = true)
                     (map_to_list (announcements_collection db)))), db).
Proof. destruct b; reflexivity. Qed.

Lemma matches_active d ct :
  Mongo.matches d (active_query ct) = true
  ↔ Str.le ct (expiration_date d)
    ∧ (start_date d = Missing ∨ start_date d = Null
       ∨ ∃ s, start_date d = Str s ∧ Str.le s ct).
Proof.
  unfold Str.le.
  assert (Mongo.matches d (active_query ct)
          = String.leb ct (expiration_date d)
            && match start_date d with
               | Str s => String.leb s ct
               | _ => true
               end) as -> by (by destruct (start_date d) eqn:E; cbn; rewrite E, ?orb_false_r, ?andb_true_r).
  rewrite andb_true_iff. apply and_iff_compat_l.
  destruct (start_date d) as [| |s]; (split; [intros Hs|]).
  - by left.
  - done.
  - right. by left.
  - done.
  - right. right. eauto.
  - by intros [?|[?|(s' & [= <-] & Hs)]].
Qed.
Lemma elem_of_listed (b : bool) ev db a :
  a ∈ (serialize <$>
         merge_sort created_at_desc
           (filter (λ p : ObjectId * document, Mongo.matches p.2
                           (if b then active_query (current_time ev) else Mongo.All) = true)
                   (map_to_list (announcements_collection db))))
  ↔ ∃ oid d, a = serialize (oid, d)
             ∧ announcements_collection db !! oid = Some d
             ∧ Mongo.matches d (if b then active_query (current_time ev) else Mongo.All) = true.
Proof.
  rewrite list_elem_of_fmap. setoid_rewrite merge_sort_Permutation.
  setoid_rewrite list_elem_of_filter. split.
  - intros ([oid d] & -> & Hm & Hin%elem_of_map_to_list). eauto.
  - intros (oid & d & -> & Hin%elem_of_map_to_list & Hm). eauto.
Qed.

(** What the active query does with the stored strings: a stored
    announcement is listed exactly when the current-time string is at
    or before its [expiration_date] and its [start_date] is missing,
    null, or at or before the current-time string, in string order. *)
Lemma listed_active_iff ev db oid d :
  announcements_collection db !! oid = Some d →
  ∃ l, list_ true ev db = (Ok l, db)
       ∧ ({| id := ObjectId_str oid; fields := d |} ∈ l
          ↔ Str.le (current_time ev) (expiration_date d)
            ∧ (start_date d = Missing ∨ start_date d = Null
               ∨ ∃ s, start_date d = Str s ∧ Str.le s (current_time ev))).
Proof.
  intros Hd. eexists. split; [apply list_unfold|].
  rewrite elem_of_listed, <- matches_active. split.
  - by intros (oid' & d' & [= _ <-] & _ & Hm).
  - intros Hm. by exists oid, d.
Qed.

(** C1 (amended). Take a stored announcement whose [expiration_date]
    is a UTC time [x] written the way the list operation writes the
    current time ([x.isoformat() + "Z"]), and whose [start_date] is
    missing, null, or a UTC time [y] written that way; let each of
    these times be written with a fraction of a second exactly when
    the current time is, or lie in another second than the current
    time. With [active_only = true] the list operation returns the
    announcement, under its identifier and with its stored fields,
    exactly when the current time is in the closed range from [y] to
    [x]: [y <= now <= x], a missing or null [start_date] counting as
    always started. *)
Theorem C1_active_filter ev db oid d x (start : option datetime) :
  announcements_collection db !! oid = Some d →
  naive_valid (datetime_utcnow ev) →
  expiration_date d = utc_string x →
  naive_valid x →
  same_precision_or_second_apart (datetime_utcnow ev) x →
  match start with
  | None => start_date d = Missing ∨ start_date d = Null
  | Some y => start_date d = Str (utc_string y)
              ∧ naive_valid y
              ∧ same_precision_or_second_apart y (datetime_utcnow ev)
  end →
  ∃ l, list_ true ev db = (Ok l, db)
       ∧ ({| id := ObjectId_str oid; fields := d |} ∈ l
          ↔ Datetime.le (datetime_utcnow ev) x = Ok true
            ∧ match start with
              | None => True
              | Some y => Datetime.le y (datetime_utcnow ev) = Ok true
              end).
Proof.
  intros Hd Hnow He Hx Hxp Hs.
  destruct (listed_active_iff ev db oid d Hd) as (l & Hl & Hiff).
  exists l. split; [done|]. rewrite Hiff. unfold Str.le.
  change (current_time ev) with (utc_string (datetime_utcnow ev)).
  rewrite He, (utc_string_leb _ _ Hnow Hx Hxp).
  apply and_iff_compat_l. destruct start as [y|].
  - destruct Hs as (Hy & Hyv & Hyp).
    rewrite <- (utc_string_leb _ _ Hyv Hnow Hyp), Hy. split.
    + by intros [?|[?|(s & [= <-] & Hle)]].
    + intros Hle. right. right. eauto.
  - split; [done|]. intros _. destruct Hs as [Hs|Hs]; auto.
Qed.

#[local] Instance created_at_desc_trans : Transitive (created_at_desc (ObjectId:=ObjectId)).
Proof. intros x y z Hxy Hyz. unfold created_at_desc, Str.le in *. by eapply string_leb_trans. Qed.

#[local] Instance created_at_desc_total : Total (created_at_desc (ObjectId:=ObjectId)).
Proof. intros x y. unfold created_at_desc, Str.le. destruct (String.leb_total (created_at y.2) (created_at x.2)); auto. Qed.


(** *** The writing handlers on their successful paths *)

Ltac reduce :=
  cbv beta iota;
  cbn [fst snd fmap option_fmap option_map
       announcements_collection teachers_collection
       Mongo.modified_count Mongo.matched_count Mongo.deleted_count].

Lemma create_ok m e s t ev db exp :
  is_Some (teachers_collection db !! t) →
  parse fromisoformat e = inr exp →
  Datetime.le exp (datetime_now ev (tzinfo exp)) = Ok false →
  start_ok fromisoformat s exp →
  announcements_collection db !! generated_id ev = None →
  create m e s t ev db
  = (Ok {| id := ObjectId_str (generated_id ev);
           fields := created_document m e s t ev |},
     with_announcements db
       (<[generated_id ev := created_document m e s t ev]> (announcements_collection db))).
Proof.
  intros [x Ht] He Hle Hs Hfresh. run. rewrite Ht. reduce.
  rewrite He. reduce. rewrite Hle. reduce.
  destruct (Str.truthy s) eqn:Htr; reduce.
  - destruct Hs as (st & Hst & Hge); [done|].
    rewrite Hst. reduce. rewrite Hge. reduce. by rewrite Hfresh.
  - by rewrite Hfresh.
Qed.

Lemma update_ok i m e s t ev db oid d exp :
  is_Some (teachers_collection db !! t) →
  ObjectId_init i = Some oid →
  announcements_collection db !! oid = Some d →
  parse fromisoformat e = inr exp →
  start_ok fromisoformat s exp →
  update i m e s t ev db
  = (Ok (serialize (oid, updated_document m e s d)),
     with_announcements db
       (<[oid := updated_document m e s d]> (announcements_collection db))).
Proof.
  intros [x Ht] Hi Hd He Hs. run. rewrite Ht. reduce.
  rewrite Hi. reduce. rewrite Hd. reduce. rewrite He. reduce.
  assert (∀ r : Z, (r =? 0) && (1 =? 0) = false) as Hguard
    by (intros; apply andb_false_r).
  destruct (Str.truthy s) eqn:Htr; reduce.
  - destruct Hs as (st & Hst & Hge); [done|].
    rewrite Hst. reduce. rewrite Hge. reduce.
    rewrite Hd. reduce. rewrite Hguard. reduce. by rewrite lookup_insert_eq.
  - rewrite Hd. reduce. rewrite Hguard. reduce. by rewrite lookup_insert_eq.
Qed.

Lemma create_inv m e s t ev db a db' :
  create m e s t ev db = (Ok a, db') →
  is_Some (teachers_collection db !! t)
  ∧ announcements_collection db !! generated_id ev = None
  ∧ ∃ exp, parse fromisoformat e = inr exp
           ∧ Datetime.le exp (datetime_now ev (tzinfo exp)) = Ok false
           ∧ start_ok fromisoformat s exp.
Proof.
  unfold start_ok. run. repeat step; intros; simplify_eq;
    (split; [by eauto|]); (split; [done|]); eexists; (split; [done|]);
    (split; [done|]); intros; [eauto|congruence].
Qed.

Lemma update_inv i m e s t ev db a db' :
  update i m e s t ev db = (Ok a, db') →
  is_Some (teachers_collection db !! t)
  ∧ ∃ oid d exp, ObjectId_init i = Some oid
                 ∧ announcements_collection db !! oid = Some d
                 ∧ parse fromisoformat e = inr exp
                 ∧ start_ok fromisoformat s exp.
Proof.
  unfold start_ok. run. repeat step; intros; simplify_eq.
  all: try (split; [by eauto|]); eexists _, _, _; split_and!; try done.
  all: intros; eauto.
Qed.

Lemma ge_comparable st exp :
  (tzinfo st = None ↔ tzinfo exp = None) → ∃ r, Datetime.ge st exp = Ok r.
Proof.
  intros Htz. unfold Datetime.ge.
  destruct (Datetime._cmp st exp) as [c|x] eqn:E; [by eauto|].
  apply cmp_raises in E as [_ E]. tauto.
Qed.

(** Picks the way in which the dates are bad from the hypotheses. *)
Ltac bad_date :=
  let hyp := first [eassumption | reflexivity] in
  first
    [ left; eexists; hyp
    | right; left; eexists; split; hyp
    | right; right; left; split; [hyp|eexists; hyp]
    | right; right; right; split; [hyp|eexists _, _; split_and!; hyp] ].

Lemma create_400_iff m e s t ev db :
  is_Some (teachers_collection db !! t) →
  (∃ dt, (create m e s t ev db).1 = Raise (HTTPException 400 dt))
  ↔ bad_dates fromisoformat e s ev.
Proof.
  intros [x Ht].
  unfold bad_dates, expiration_unparseable, expiration_not_future,
    start_unparseable, start_not_before.
  split.
  - intros [dt Hr]. revert Hr. run. rewrite Ht. reduce.
    repeat step; intros; simplify_eq; try absurd_cmp; bad_date.
  - intros Hbad. run. rewrite Ht. reduce.
    repeat step; try (by eexists); exfalso;
      destruct Hbad as [(?&?)|[(?&?&?)|[(?&?&?)|(?&?&?&?&?&?)]]];
      simplify_eq; try congruence; absurd_cmp.
Qed.

(** C2 (amended). Given the teacher exists, create fails with
    BadRequest exactly when the expiration date does not parse, or is
    not strictly after the current time, or the start date is
    non-empty and does not parse, or the start date (non-empty) parses
    and compares at or after the expiration date. When none of these
    holds, the start date is absent, empty, or of the same
    offset-awareness as the expiration date, and the generated
    identifier is new to the collection, create inserts the document
    and returns it with that identifier. *)
Theorem C2_create_bad_request m e s t ev db :
  is_Some (teachers_collection db !! t) →
  ((∃ dt, (create m e s t ev db).1 = Raise (HTTPException 400 dt))
   ↔ bad_dates fromisoformat e s ev)
  ∧ (¬ bad_dates fromisoformat e s ev → comparable fromisoformat s e →
     announcements_collection db !! generated_id ev = None →
     create m e s t ev db
     = (Ok {| id := ObjectId_str (generated_id ev);
              fields := created_document m e s t ev |},
        with_announcements db
          (<[generated_id ev := created_document m e s t ev]>
             (announcements_collection db)))).
Proof.
  intros Ht. split; [by apply create_400_iff|].
  unfold bad_dates, expiration_unparseable, expiration_not_future,
    start_unparseable, start_not_before.
  intros Hgood Hcmp Hfresh.
  destruct (parse fromisoformat e) as [msg|exp] eqn:He;
    [destruct Hgood; bad_date|].
  destruct (le_now exp ev) as [[|] Hle]; [destruct Hgood; bad_date|].
  apply create_ok with exp; try done.
  intros Htr.
  destruct (parse fromisoformat (default "" s)) as [msg|st] eqn:Hs;
    [destruct Hgood; bad_date|].
  destruct (ge_comparable st exp) as [[|] Hge]; [by apply Hcmp| |by exists st].
  destruct Hgood. bad_date.
Qed.

(** C4. Update does not check that the expiration date is in the
    future: for an existing teacher and an existing announcement, an
    update whose expiration date parses but is not after the current
    time, and whose start date (if non-empty) parses and is strictly
    before it, succeeds and stores that expiration date, while create
    rejects the same dates with BadRequest. *)
Theorem C4_update_accepts_past_expiration i m e s t ev db oid d exp :
  is_Some (teachers_collection db !! t) →
  ObjectId_init i = Some oid →
  announcements_collection db !! oid = Some d →
  parse fromisoformat e = inr exp →
  Datetime.le exp (datetime_now ev (tzinfo exp)) = Ok true →
  start_ok fromisoformat s exp →
  (∃ a db', update i m e s t ev db = (Ok a, db')
            ∧ id a = ObjectId_str oid
            ∧ expiration_date (fields a) = e
            ∧ announcements_collection db' !! oid = Some (fields a))
  ∧ create m e s t ev db
    = (Raise (HTTPException 400 "Expiration date must be in the future"), db).
Proof.
  intros Ht Hi Hd He Hle Hs. split.
  - eexists _, _. split; [by eapply update_ok|].
    split_and!; [done..|]. apply lookup_insert_eq.
  - destruct Ht as [x Ht]. run. rewrite Ht. reduce. rewrite He. reduce.
    by rewrite Hle.
Qed.

(** C5. A successful update replaces [message], [start_date] and
    [expiration_date] of the target document and nothing else:
    [created_by], [created_at] and the identifier stay, every other
    announcement and the teachers stay, and the returned record is the
    updated document. *)
Theorem C5_update_frame i m e s t ev db a db' :
  update i m e s t ev db = (Ok a, db') →
  ∃ oid d,
    ObjectId_init i = Some oid
    ∧ announcements_collection db !! oid = Some d
    ∧ announcements_collection db' !! oid = Some (fields a)
    ∧ id a = ObjectId_str oid
    ∧ message (fields a) = m
    ∧ start_date (fields a) = of_optional s
    ∧ expiration_date (fields a) = e
    ∧ created_by (fields a) = created_by d
    ∧ created_at (fields a) = created_at d
    ∧ (∀ oid', oid' ≠ oid →
         announcements_collection db' !! oid' = announcements_collection db !! oid')
    ∧ dom (announcements_collection db') = dom (announcements_collection db)
    ∧ teachers_collection db' = teachers_collection db.
Proof.
  intros Hr. destruct (update_inv _ _ _ _ _ _ _ _ _ Hr)
    as (Ht & oid & d & exp & Hi & Hd & He & Hs).
  rewrite (update_ok _ _ _ _ _ _ _ _ _ _ Ht Hi Hd He Hs) in Hr.
  injection Hr as <- <-. exists oid, d.
  split_and!; try done.
  - apply lookup_insert_eq.
  - intros oid' Hne. by apply lookup_insert_ne.
  - unfold with_announcements. cbn [announcements_collection].
    rewrite dom_insert_L. apply elem_of_dom_2 in Hd.
    apply set_eq. intros o. rewrite elem_of_union, elem_of_singleton.
    split; [by intros [->|]|by right].
Qed.

(** C6. A created record is fetched back unchanged: the list
    operation on the resulting store returns the very record create
    returned, whose [message], [start_date] and [expiration_date] are
    the strings the caller passed. *)
Theorem C6_create_list_roundtrip m e s t ev db a db' :
  create m e s t ev db = (Ok a, db') →
  message (fields a) = m
  ∧ start_date (fields a) = of_optional s
  ∧ expiration_date (fields a) = e
  ∧ id a = ObjectId_str (generated_id ev)
  ∧ announcements_collection db' !! generated_id ev = Some (fields a)
  ∧ ∀ ev', ∃ l, list_ false ev' db' = (Ok l, db') ∧ a ∈ l.
Proof.
  intros Hr. destruct (create_inv _ _ _ _ _ _ _ _ Hr)
    as (Ht & Hfresh & exp & He & Hle & Hs).
  rewrite (create_ok _ _ _ _ _ _ _ Ht He Hle Hs Hfresh) in Hr.
  injection Hr as <- <-. split_and!; try done.
  - apply lookup_insert_eq.
  - intros ev'. eexists. split; [apply list_unfold|].
    apply elem_of_listed. eexists _, _. split_and!; [done| |done].
    apply lookup_insert_eq.
Qed.

(** C7. For an authorised request with a well-formed identifier,
    delete fails with NotFound exactly when nothing is stored under
    the identifier, and then no document is deleted: the store is
    left as it was. When a document is stored under the identifier,
    delete removes that document, answers with the confirmation
    message, and the same delete on the resulting store fails with
    NotFound. *)
Theorem C7_delete_not_found i t ev db oid :
  is_Some (teachers_collection db !! t) →
  ObjectId_init i = Some oid →
  ((delete_ i t ev db).1 = Raise (HTTPException 404 "Announcement not found")
   ↔ announcements_collection db !! oid = None)
  ∧ (announcements_collection db !! oid = None →
     delete_ i t ev db = (Raise (HTTPException 404 "Announcement not found"), db))
  ∧ (∀ d, announcements_collection db !! oid = Some d →
       ∃ db', delete_ i t ev db = (Ok "Announcement deleted successfully", db')
              ∧ announcements_collection db' = delete oid (announcements_collection db)
              ∧ announcements_collection db' !! oid = None
              ∧ size (announcements_collection db)
                = S (size (announcements_collection db'))
              ∧ teachers_collection db' = teachers_collection db
              ∧ ∀ ev', delete_ i t ev' db'
                       = (Raise (HTTPException 404 "Announcement not found"), db')).
Proof.
  intros [x Ht] Hi. split_and!.
  - run. rewrite Ht. reduce. rewrite Hi. reduce.
    by destruct (announcements_collection db !! oid).
  - intros Hd. run. rewrite Ht. reduce. rewrite Hi. reduce. by rewrite Hd.
  - intros d Hd.
    exists (with_announcements db (delete oid (announcements_collection db))).
    unfold with_announcements. split_and!.
    + run. rewrite Ht. reduce. rewrite Hi. reduce. by rewrite Hd.
    + done.
    + apply lookup_delete_eq.
    + cbn [announcements_collection].
      rewrite <- (insert_delete_id (announcements_collection db) oid d) at 1 by done.
      apply map_size_insert_None, lookup_delete_eq.
    + done.
    + intros ev'. run. reduce. rewrite Ht. reduce. rewrite Hi. reduce.
      by rewrite lookup_delete_eq.
Qed.

(** C9. Once the existence check of update has found a document under
    the identifier, the store's [update_one] reports one match, so the
    guard of the InternalError branch is false; update never raises
    the 500 of that branch. *)
Theorem C9_update_internal_error_unreachable oid x ev db :
  (find_one oid ev db).1 = Ok (Some x) →
  (∀ m sd ed, ∃ r, (update_one oid m sd ed ev db).1 = Ok r
                   ∧ Mongo.matched_count r = 1
                   ∧ (Mongo.modified_count r =? 0) && (Mongo.matched_count r =? 0) = false)
  ∧ (∀ i m e s t dt,
       (update i m e s t ev db).1 ≠ Raise (HTTPException 500 dt)).
Proof.
  intros Hx. split.
  - intros m sd ed. run.
    destruct (announcements_collection db !! oid) eqn:Hd; [|done].
    eexists. split_and!; [done..|]. apply andb_false_r.
  - clear. intros i m e s t dt. run.
    repeat step; intros; simplify_eq; try done; try absurd_cmp.
    all: rewrite andb_false_r in *; done.
Qed.

(** C10. In create and in update an empty [start_date] is treated as
    an absent one: the request raises exactly what it raises without a
    start date, and when it succeeds (as it does whenever the other
    checks pass) the empty string is what the document stores. *)
Theorem C10_empty_start_date_is_absent m e t ev db :
  (∀ x, (create m e (Some "") t ev db).1 = Raise x
        ↔ (create m e None t ev db).1 = Raise x)
  ∧ (∀ i x, (update i m e (Some "") t ev db).1 = Raise x
            ↔ (update i m e None t ev db).1 = Raise x)
  ∧ (∀ a db', create m e (Some "") t ev db = (Ok a, db') →
       start_date (fields a) = Str ""
       ∧ announcements_collection db' !! generated_id ev = Some (fields a))
  ∧ (∀ i a db', update i m e (Some "") t ev db = (Ok a, db') →
       start_date (fields a) = Str ""
       ∧ ∃ oid, ObjectId_init i = Some oid
                ∧ announcements_collection db' !! oid = Some (fields a))
  ∧ (∀ exp,
       is_Some (teachers_collection db !! t) →
       parse fromisoformat e = inr exp →
       Datetime.le exp (datetime_now ev (tzinfo exp)) = Ok false →
       announcements_collection db !! generated_id ev = None →
       ∃ a db', create m e (Some "") t ev db = (Ok a, db'))
  ∧ (∀ i oid d exp,
       is_Some (teachers_collection db !! t) →
       ObjectId_init i = Some oid →
       announcements_collection db !! oid = Some d →
       parse fromisoformat e = inr exp →
       ∃ a db', update i m e (Some "") t ev db = (Ok a, db')).
Proof.
  split_and!.
  - intros x. run.
    destruct (teachers_collection db !! t); reduce; [|done].
    destruct (fromisoformat _) as [msg|exp]; reduce; [done|].
    destruct (Datetime.le _ _) as [[|]|y]; reduce; [done| |by destruct y].
    change (Str.truthy (Some "")) with false. change (Str.truthy None) with false.
    reduce. by destruct (announcements_collection db !! generated_id ev).
  - intros i x. run.
    destruct (teachers_collection db !! t); reduce; [|done].
    destruct (ObjectId_init i) as [oid|]; reduce; [|done].
    destruct (announcements_collection db !! oid) as [d|] eqn:Hd; reduce; [|done].
    destruct (fromisoformat _) as [msg|exp]; reduce; [done|].
    change (Str.truthy (Some "")) with false. change (Str.truthy None) with false.
    reduce. rewrite Hd. reduce. change (1 =? 0) with false.
    rewrite !andb_false_r. reduce. rewrite !lookup_insert_eq. by reduce.
  - intros a db' Hr. destruct (create_inv _ _ _ _ _ _ _ _ Hr)
      as (Ht & Hfresh & exp & He & Hle & Hs).
    rewrite (create_ok _ _ _ _ _ _ _ Ht He Hle Hs Hfresh) in Hr.
    injection Hr as <- <-. split; [done|]. apply lookup_insert_eq.
  - intros i a db' Hr. destruct (update_inv _ _ _ _ _ _ _ _ _ Hr)
      as (Ht & oid & d & exp & Hi & Hd & He & Hs).
    rewrite (update_ok _ _ _ _ _ _ _ _ _ _ Ht Hi Hd He Hs) in Hr.
    injection Hr as <- <-. split; [done|].
    exists oid. split; [done|]. apply lookup_insert_eq.
  - intros exp Ht He Hle Hfresh. eexists _, _.
    eapply create_ok; [done..|by intros ?|done].
  - intros i oid d exp Ht Hi Hd He. eexists _, _.
    eapply update_ok; [done..|by intros ?].
Qed.

(** *** Further properties of the handlers *)

(** X1. The list operation returns one record per stored announcement
    when [active_only = false], and with [active_only = true] a part
    of those records. *)
Theorem list_counts ev db :
  ∃ l_all l_active,
    list_ false ev db = (Ok l_all, db)
    ∧ list_ true ev db = (Ok l_active, db)
    ∧ length l_all = size (announcements_collection db)
    ∧ l_active ⊆ l_all
    ∧ (length l_active ≤ length l_all)%nat.
Proof.
  eexists _, _. split; [apply list_unfold|]. split; [apply list_unfold|].
  rewrite filter_all by done. split_and!.
  - by rewrite length_fmap, merge_sort_Permutation, length_map_to_list.
  - intros a. rewrite !list_elem_of_fmap.
    setoid_rewrite merge_sort_Permutation.
    intros (p & -> & [_ Hp]%list_elem_of_filter). eauto.
  - rewrite !length_fmap, !merge_sort_Permutation. apply length_filter.
Qed.

(** X2. With a known teacher, update and delete answer a malformed
    identifier with BadRequest, and update answers a well-formed
    identifier that is not stored with NotFound, in both cases before
    looking at the dates and without touching the store. *)
Theorem identifier_errors i t ev db :
  is_Some (teachers_collection db !! t) →
  (ObjectId_init i = None →
     (∀ m e s, update i m e s t ev db
               = (Raise (HTTPException 400 "Invalid announcement ID"), db))
     ∧ delete_ i t ev db = (Raise (HTTPException 400 "Invalid announcement ID"), db))
  ∧ (∀ oid, ObjectId_init i = Some oid →
       announcements_collection db !! oid = None →
       ∀ m e s, update i m e s t ev db
                = (Raise (HTTPException 404 "Announcement not found"), db)).
Proof.
  intros [x Ht]. split.
  - intros Hi. split; [intros m e s|]; run; rewrite Ht; reduce; by rewrite Hi.
  - intros oid Hi Hd m e s. run. rewrite Ht. reduce. rewrite Hi. reduce.
    by rewrite Hd.
Qed.

Lemma update_raise_inv i m e s t ev db x db' :
  update i m e s t ev db = (Raise x, db') →
  db' = db
  ∧ (x = HTTPException 401 "Invalid teacher credentials"
     ∨ (∃ dt, x = HTTPException 400 dt)
     ∨ x = HTTPException 404 "Announcement not found"
     ∨ x = TypeError "can't compare offset-naive and offset-aware datetimes").
Proof.
  run.
  destruct (teachers_collection db !! t); reduce; [|intros [= <- <-]; eauto].
  destruct (ObjectId_init i) as [oid|]; reduce; [|intros [= <- <-]; eauto 6].
  destruct (announcements_collection db !! oid) as [d|] eqn:Hd; reduce;
    [|intros [= <- <-]; eauto 6].
  destruct (fromisoformat _) as [msg|exp]; reduce; [intros [= <- <-]; eauto 6|].
  assert (∀ T (k1 k2 : T) (c : bool),
            (if c && (1 =? 0) then k1 else k2) = k2) as Hguard
    by (by intros T k1 k2 []).
  destruct (Str.truthy s); reduce.
  - destruct (fromisoformat _) as [msg|st]; reduce; [intros [= <- <-]; eauto 6|].
    destruct (Datetime.ge st exp) as [[|]|y] eqn:Hge; reduce.
    + intros [= <- <-]; eauto 6.
    + rewrite Hd. reduce. rewrite Hguard. reduce. by rewrite lookup_insert_eq.
    + apply ge_raises in Hge as ->. reduce. intros [= <- <-]; eauto 6.
  - rewrite Hd. reduce. rewrite Hguard. reduce. by rewrite lookup_insert_eq.
Qed.

Lemma create_raise_inv m e s t ev db x db' :
  create m e s t ev db = (Raise x, db') →
  db' = db
  ∧ (x = HTTPException 401 "Invalid teacher credentials"
     ∨ (∃ dt, x = HTTPException 400 dt)
     ∨ x = TypeError "can't compare offset-naive and offset-aware datetimes"
     ∨ x = DuplicateKeyError).
Proof.
  run.
  destruct (teachers_collection db !! t); reduce; [|intros [= <- <-]; eauto].
  destruct (fromisoformat _) as [msg|exp]; reduce; [intros [= <- <-]; eauto 6|].
  destruct (le_now exp ev) as [[|] ->]; reduce; [intros [= <- <-]; eauto 6|].
  destruct (Str.truthy s); reduce.
  - destruct (fromisoformat _) as [msg|st]; reduce; [intros [= <- <-]; eauto 6|].
    destruct (Datetime.ge st exp) as [[|]|y] eqn:Hge; reduce.
    + intros [= <- <-]; eauto 6.
    + destruct (announcements_collection db !! generated_id ev); [|done].
      intros [= <- <-]; eauto 6.
    + apply ge_raises in Hge as ->. reduce. intros [= <- <-]; eauto 6.
  - destruct (announcements_collection db !! generated_id ev); [|done].
    intros [= <- <-]; eauto 6.
Qed.

Lemma delete_raise_inv i t ev db x db' :
  delete_ i t ev db = (Raise x, db') →
  db' = db
  ∧ (x = HTTPException 401 "Invalid teacher credentials"
     ∨ x = HTTPException 400 "Invalid announcement ID"
     ∨ x = HTTPException 404 "Announcement not found").
Proof.
  run.
  destruct (teachers_collection db !! t); reduce; [|intros [= <- <-]; eauto].
  destruct (ObjectId_init i) as [oid|]; reduce; [|intros [= <- <-]; eauto].
  destruct (announcements_collection db !! oid); reduce; [done|].
  intros [= <- <-]; eauto.
Qed.

(** X3. A request that raises leaves the store as it found it, for
    each of the three writing handlers. *)
Theorem raise_leaves_store t ev db x db' :
  (∀ m e s, create m e s t ev db = (Raise x, db') → db' = db)
  ∧ (∀ i m e s, update i m e s t ev db = (Raise x, db') → db' = db)
  ∧ (∀ i, delete_ i t ev db = (Raise x, db') → db' = db).
Proof.
  split_and!; intros.
  - by eapply create_raise_inv.
  - by eapply update_raise_inv.
  - by eapply delete_raise_inv.
Qed.

(** X4. What the handlers can raise. Create: 401, 400, the
    [TypeError] of an offset-naive date next to an offset-aware one,
    or the store's duplicate-key error. Update: 401, 400, 404 or that
    [TypeError]; never the 500 of its last check. Delete: 401, 400
    or 404. *)
Theorem raised_exceptions t ev db x :
  (∀ m e s, (create m e s t ev db).1 = Raise x →
     x = HTTPException 401 "Invalid teacher credentials"
     ∨ (∃ dt, x = HTTPException 400 dt)
     ∨ x = TypeError "can't compare offset-naive and offset-aware datetimes"
     ∨ x = DuplicateKeyError)
  ∧ (∀ i m e s, (update i m e s t ev db).1 = Raise x →
       x = HTTPException 401 "Invalid teacher credentials"
       ∨ (∃ dt, x = HTTPException 400 dt)
       ∨ x = HTTPException 404 "Announcement not found"
       ∨ x = TypeError "can't compare offset-naive and offset-aware datetimes")
  ∧ (∀ i, (delete_ i t ev db).1 = Raise x →
       x = HTTPException 401 "Invalid teacher credentials"
       ∨ x = HTTPException 400 "Invalid announcement ID"
       ∨ x = HTTPException 404 "Announcement not found").
Proof.
  split_and!.
  - intros m e s. destruct (create m e s t ev db) as [r db'] eqn:Hr.
    cbn [fst]. intros ->. by eapply create_raise_inv.
  - intros i m e s. destruct (update i m e s t ev db) as [r db'] eqn:Hr.
    cbn [fst]. intros ->. by eapply update_raise_inv.
  - intros i. destruct (delete_ i t ev db) as [r db'] eqn:Hr.
    cbn [fst]. intros ->. by eapply delete_raise_inv.
Qed.

(** X5. For a known teacher and a stored announcement, update fails
    with BadRequest exactly when the expiration date does not parse,
    or the start date is non-empty and does not parse, or the start
    date (non-empty) parses and compares at or after the expiration
    date; whether the expiration date is in the past plays no part. *)
Theorem update_bad_request i m e s t ev db oid d :
  is_Some (teachers_collection db !! t) →
  ObjectId_init i = Some oid →
  announcements_collection db !! oid = Some d →
  (∃ dt, (update i m e s t ev db).1 = Raise (HTTPException 400 dt))
  ↔ expiration_unparseable fromisoformat e
    ∨ start_unparseable fromisoformat s
    ∨ start_not_before fromisoformat s e.
Proof.
  intros [x Ht] Hi Hd.
  unfold expiration_unparseable, start_unparseable, start_not_before.
  assert (∀ T (k1 k2 : T) (c : bool),
            (if c && (1 =? 0) then k1 else k2) = k2) as Hguard
    by (by intros T k1 k2 []).
  run. rewrite Ht. reduce. rewrite Hi. reduce. rewrite Hd. reduce.
  destruct (fromisoformat (Str.replace "Z" "+00:00" e)) as [msg|exp] eqn:He; reduce.
  { split; [intros _; left; by eexists|intros _; by eexists]. }
  destruct (Str.truthy s) eqn:Htr; reduce.
  - destruct (fromisoformat (Str.replace "Z" "+00:00" (default "" s)))
      as [msg|st] eqn:Hs; reduce.
    { split; [intros _; right; left; split; [done|by eexists]|intros _; by eexists]. }
    destruct (Datetime.ge st exp) as [[|]|y] eqn:Hge; reduce.
    + split; [intros _|intros _; by eexists].
      right. right. split; [done|]. exists st, exp. by split_and!.
    + rewrite Hd. reduce. rewrite Hguard. reduce. rewrite lookup_insert_eq. reduce.
      split; [by intros [dt [=]]|].
      intros [(?&?)|[(?&?&?)|(?&?&?&?&?&?)]]; simplify_eq; congruence.
    + pose proof (ge_raises _ _ _ Hge) as ->. reduce.
      split; [by intros [dt [=]]|].
      intros [(?&?)|[(?&?&?)|(?&?&?&?&?&?)]]; simplify_eq; congruence.
  - rewrite Hd. reduce. rewrite Hguard. reduce. rewrite lookup_insert_eq. reduce.
    split; [by intros [dt [=]]|].
    intros [(?&?)|[(?&?&?)|(?&?&?&?&?&?)]]; simplify_eq; congruence.
Qed.

(** X6. A successful create stores the fields of the record it
    returns under the generated identifier, which was free and which
    the record carries, and changes nothing else: the other
    announcements and the teachers stay. The new document is signed
    with the teacher's user name and stamped with the current time. *)
Theorem create_frame m e s t ev db a db' :
  create m e s t ev db = (Ok a, db') →
  announcements_collection db !! generated_id ev = None
  ∧ id a = ObjectId_str (generated_id ev)
  ∧ announcements_collection db' !! generated_id ev = Some (fields a)
  ∧ (∀ oid, oid ≠ generated_id ev →
       announcements_collection db' !! oid = announcements_collection db !! oid)
  ∧ size (announcements_collection db') = S (size (announcements_collection db))
  ∧ created_by (fields a) = t
  ∧ created_at (fields a) = current_time ev
  ∧ teachers_collection db' = teachers_collection db.
Proof.
  intros Hr. destruct (create_inv _ _ _ _ _ _ _ _ Hr)
    as (Ht & Hfresh & exp & He & Hle & Hs).
  rewrite (create_ok _ _ _ _ _ _ _ Ht He Hle Hs Hfresh) in Hr.
  injection Hr as <- <-. split_and!; try done.
  - apply lookup_insert_eq.
  - intros oid Hne. by apply lookup_insert_ne.
  - by apply map_size_insert_None.
Qed.

Lemma delete_inv i t ev db msg db' :
  delete_ i t ev db = (Ok msg, db') →
  msg = "Announcement deleted successfully"
  ∧ is_Some (teachers_collection db !! t)
  ∧ ∃ oid d, ObjectId_init i = Some oid
             ∧ announcements_collection db !! oid = Some d
             ∧ db' = with_announcements db (delete oid (announcements_collection db)).
Proof.
  run.
  destruct (teachers_collection db !! t); reduce; [|done].
  destruct (ObjectId_init i) as [oid|]; reduce; [|done].
  destruct (announcements_collection db !! oid) as [d|] eqn:Hd; reduce; [|done].
  intros [= <- <-]. eauto 10.
Qed.

(** X7. A successful delete removes the document stored under the
    identifier and nothing else, and answers with the confirmation
    message. *)
Theorem delete_frame i t ev db msg db' :
  delete_ i t ev db = (Ok msg, db') →
  msg = "Announcement deleted successfully"
  ∧ ∃ oid d,
      ObjectId_init i = Some oid
      ∧ announcements_collection db !! oid = Some d
      ∧ announcements_collection db' !! oid = None
      ∧ (∀ oid', oid' ≠ oid →
           announcements_collection db' !! oid' = announcements_collection db !! oid')
      ∧ size (announcements_collection db) = S (size (announcements_collection db'))
      ∧ teachers_collection db' = teachers_collection db.
Proof.
  intros (-> & _ & oid & d & Hi & Hd & ->)%delete_inv. split; [done|].
  exists oid, d. split_and!; try done.
  - apply lookup_delete_eq.
  - intros oid' Hne. by apply lookup_delete_ne.
  - unfold with_announcements. cbn [announcements_collection].
    rewrite <- (insert_delete_id (announcements_collection db) oid d) at 1 by done.
    apply map_size_insert_None, lookup_delete_eq.
Qed.

Lemma delete_ok i t ev db oid d :
  is_Some (teachers_collection db !! t) →
  ObjectId_init i = Some oid →
  announcements_collection db !! oid = Some d →
  delete_ i t ev db
  = (Ok "Announcement deleted successfully",
     with_announcements db (delete oid (announcements_collection db))).
Proof.
  intros [x Ht] Hi Hd. run. rewrite Ht. reduce. rewrite Hi. reduce.
  by rewrite Hd.
Qed.

Lemma with_announcements_id db :
  with_announcements db (announcements_collection db) = db.
Proof. by destruct db. Qed.

(** X8. Deleting a freshly created announcement by the identifier
    create returned brings the store back to what it was, provided
    the identifier library reads back the strings it prints. *)
Theorem create_then_delete m e s t ev db a db1 ev' :
  ObjectId_init (ObjectId_str (generated_id ev)) = Some (generated_id ev) →
  create m e s t ev db = (Ok a, db1) →
  delete_ (id a) t ev' db1 = (Ok "Announcement deleted successfully", db).
Proof.
  intros Hrt Hr. destruct (create_inv _ _ _ _ _ _ _ _ Hr)
    as (Ht & Hfresh & exp & He & Hle & Hs).
  rewrite (create_ok _ _ _ _ _ _ _ Ht He Hle Hs Hfresh) in Hr.
  injection Hr as <- <-. cbn [id].
  erewrite delete_ok; [|done|done|apply lookup_insert_eq].
  unfold with_announcements. cbn [announcements_collection teachers_collection].
  rewrite delete_insert_id by done. by destruct db.
Qed.


(** X10. What the list operation shows after a write. After a
    successful update the full listing has the returned record and as
    many records as before; after a successful delete every listed
    record, in either mode, belongs to a document that was stored
    under another identifier. *)
Theorem list_after_write i t ev db db' ev' :
  (∀ m e s a, update i m e s t ev db = (Ok a, db') →
     ∃ l, list_ false ev' db' = (Ok l, db') ∧ a ∈ l
          ∧ length l = size (announcements_collection db))
  ∧ (∀ msg, delete_ i t ev db = (Ok msg, db') →
       ∃ oid, ObjectId_init i = Some oid
         ∧ ∀ b, ∃ l, list_ b ev' db' = (Ok l, db')
             ∧ ∀ a, a ∈ l →
                 ∃ oid' d, oid' ≠ oid
                           ∧ announcements_collection db !! oid' = Some d
                           ∧ a = serialize (oid', d)).
Proof.
  split.
  - intros m e s a Hr. destruct (update_inv _ _ _ _ _ _ _ _ _ Hr)
      as (Ht & oid & d & exp & Hi & Hd & He & Hs).
    rewrite (update_ok _ _ _ _ _ _ _ _ _ _ Ht Hi Hd He Hs) in Hr.
    injection Hr as <- <-. eexists. split; [apply list_unfold|]. split.
    + apply (elem_of_listed false ev'). eexists _, _. split_and!; [done| |done].
      apply lookup_insert_eq.
    + rewrite filter_all by done.
      rewrite length_fmap, merge_sort_Permutation, length_map_to_list.
      unfold with_announcements. cbn [announcements_collection].
      rewrite <- (insert_delete_eq (announcements_collection db)).
      rewrite map_size_insert_None by apply lookup_delete_eq.
      rewrite <- (insert_delete_id (announcements_collection db) oid d) at 2 by done.
      by rewrite map_size_insert_None by apply lookup_delete_eq.
  - intros msg (-> & _ & oid & d & Hi & Hd & ->)%delete_inv.
    exists oid. split; [done|]. intros b. eexists. split; [apply list_unfold|].
    intros a (oid' & d' & -> & Hd' & _)%elem_of_listed.
    unfold with_announcements in Hd'. cbn [announcements_collection] in Hd'.
    apply lookup_delete_Some in Hd' as [Hne Hd']. by exists oid', d'.
Qed.

(** X11. A non-empty start date and an expiration date of which one
    carries a UTC offset and the other does not are not rejected with
    BadRequest: the comparison raises [TypeError], which passes the
    [except ValueError] clause, in create (once the expiration date is
    in the future) and in update; the store stays as it was. *)
Theorem naive_against_aware_dates i m e s t ev db exp st :
  is_Some (teachers_collection db !! t) →
  parse fromisoformat e = inr exp →
  Str.truthy s = true →
  parse fromisoformat (default "" s) = inr st →
  (tzinfo st = None ↔ tzinfo exp ≠ None) →
  (Datetime.le exp (datetime_now ev (tzinfo exp)) = Ok false →
     create m e s t ev db
     = (Raise (TypeError "can't compare offset-naive and offset-aware datetimes"), db))
  ∧ (∀ oid d, ObjectId_init i = Some oid →
       announcements_collection db !! oid = Some d →
       update i m e s t ev db
       = (Raise (TypeError "can't compare offset-naive and offset-aware datetimes"), db)).
Proof.
  intros [x Ht] He Htr Hs Htz.
  assert (Datetime.ge st exp
          = Raise (TypeError "can't compare offset-naive and offset-aware datetimes"))
    as Hge.
  { unfold Datetime.ge, Datetime._cmp.
    destruct (tzinfo st), (tzinfo exp); try done; exfalso; intuition congruence. }
  split.
  - intros Hle. run. rewrite Ht. reduce. rewrite He. reduce. rewrite Hle. reduce.
    rewrite Htr. reduce. rewrite Hs. reduce. by rewrite Hge.
  - intros oid d Hi Hd. run. rewrite Ht. reduce. rewrite Hi. reduce.
    rewrite Hd. reduce. rewrite He. reduce.
    rewrite Htr. reduce. rewrite Hs. reduce. by rewrite Hge.
Qed.

(** X12. An announcement can be updated through the identifier
    create returned (provided the identifier library reads back the
    strings it prints): the update succeeds when its dates pass, keeps
    the identifier, the author and the creation time that create
    wrote, and the full listing then shows the new text. *)
Theorem create_then_update m e s t ev db a db1 m' e' s' ev' exp' :
  ObjectId_init (ObjectId_str (generated_id ev)) = Some (generated_id ev) →
  create m e s t ev db = (Ok a, db1) →
  parse fromisoformat e' = inr exp' →
  start_ok fromisoformat s' exp' →
  ∃ a' db2,
    update (id a) m' e' s' t ev' db1 = (Ok a', db2)
    ∧ id a' = id a
    ∧ message (fields a') = m'
    ∧ created_by (fields a') = t
    ∧ created_at (fields a') = current_time ev
    ∧ ∃ l, list_ false ev' db2 = (Ok l, db2) ∧ a' ∈ l
           ∧ length l = S (size (announcements_collection db)).
Proof.
  intros Hrt Hr He' Hs'. destruct (create_inv _ _ _ _ _ _ _ _ Hr)
    as (Ht & Hfresh & exp & He & Hle & Hs).
  rewrite (create_ok _ _ _ _ _ _ _ Ht He Hle Hs Hfresh) in Hr.
  injection Hr as <- <-. cbn [id]. eexists _, _.
  split; [eapply update_ok; [done|done|apply lookup_insert_eq|done|done]|].
  split_and!; try done.
  eexists. split; [apply list_unfold|]. split.
  - apply (elem_of_listed false ev'). eexists _, _. split_and!; [done| |done].
    apply lookup_insert_eq.
  - rewrite filter_all by done.
    rewrite length_fmap, merge_sort_Permutation, length_map_to_list.
    unfold with_announcements. cbn [announcements_collection].
    rewrite insert_insert_eq. by apply map_size_insert_None.
Qed.

(** X13. No handler writes to the teachers collection, whatever it
    returns or raises, and the list operation writes nothing at all. *)
Theorem teachers_never_written t ev db :
  (∀ m e s r db', create m e s t ev db = (r, db') →
     teachers_collection db' = teachers_collection db)
  ∧ (∀ i m e s r db', update i m e s t ev db = (r, db') →
       teachers_collection db' = teachers_collection db)
  ∧ (∀ i r db', delete_ i t ev db = (r, db') →
       teachers_collection db' = teachers_collection db)
  ∧ (∀ b r db', list_ b ev db = (r, db') → db' = db).
Proof.
  split_and!.
  - intros m e s [a|x] db' Hr.
    + destruct (create_inv _ _ _ _ _ _ _ _ Hr)
        as (Ht & Hfresh & exp & He & Hle & Hs).
      rewrite (create_ok _ _ _ _ _ _ _ Ht He Hle Hs Hfresh) in Hr.
      by injection Hr as <- <-.
    + by apply create_raise_inv in Hr as [-> _].
  - intros i m e s [a|x] db' Hr.
    + destruct (update_inv _ _ _ _ _ _ _ _ _ Hr)
        as (Ht & oid & d & exp & Hi & Hd & He & Hs).
      rewrite (update_ok _ _ _ _ _ _ _ _ _ _ Ht Hi Hd He Hs) in Hr.
      by injection Hr as <- <-.
    + by apply update_raise_inv in Hr as [-> _].
  - intros i [msg|x] db' Hr.
    + by apply delete_inv in Hr as (_ & _ & oid & d & _ & _ & ->).
    + by apply delete_raise_inv in Hr as [-> _].
  - intros b r db'. rewrite list_unfold. by intros [= _ <-].
Qed.

End Properties.

(** ** The theorems at work on the small school *)

(** The announcement of the school, which expires at the instant of
    the clock and has no start date, is listed as active. *)
Lemma C1_active_filter_witness :
  ∃ l, Scenario.list_ true Scenario.clock Scenario.store = (Ok l, Scenario.store)
       ∧ ({| id := Oid.str Scenario.exam_id; fields := Scenario.exam |} ∈ l
          ↔ Datetime.le (datetime_utcnow Scenario.clock)
              (mk_datetime 2025 1 1 0 0 0 0 None) = Ok true
            ∧ True).
Proof.
  apply (C1_active_filter Oid.str Scenario.clock Scenario.store
           Scenario.exam_id Scenario.exam
           (mk_datetime 2025 1 1 0 0 0 0 None) None).
  - vm_compute. reflexivity.
  - vm_compute. repeat split; discriminate.
  - vm_compute. reflexivity.
  - vm_compute. repeat split; discriminate.
  - left. vm_compute. split; reflexivity.
  - right. vm_compute. reflexivity.
Defined.

(** C1, as stated, fails twice. At 2025-01-01T00:00:00 UTC the
    announcement whose [expiration_date] is the string of that very
    instant is among the active ones. And at
    2025-01-01T00:00:00.999999 UTC the same announcement, expired for
    almost a second, is still among the active ones: its
    [expiration_date] is written without a fraction and the current
    time with one, and ["Z"] comes after ["."] in string order. *)
Lemma C1_counterexample :
  (expiration_date Scenario.exam = current_time Scenario.clock
   ∧ Scenario.list_ true Scenario.clock Scenario.store
     = (Ok [{| id := "000000000000000000000001"; fields := Scenario.exam |}],
        Scenario.store))
  ∧ (expiration_date Scenario.exam = utc_string (mk_datetime 2025 1 1 0 0 0 0 None)
     ∧ datetime_utcnow Scenario.late_clock = mk_datetime 2025 1 1 0 0 0 999999 None
     ∧ Datetime.le (datetime_utcnow Scenario.late_clock)
         (mk_datetime 2025 1 1 0 0 0 0 None) = Ok false
     ∧ Scenario.list_ true Scenario.late_clock Scenario.store
       = (Ok [{| id := "000000000000000000000001"; fields := Scenario.exam |}],
          Scenario.store)).
Proof. split_and!; vm_compute; reflexivity. Qed.

Lemma C2_create_bad_request_witness :
  (∃ dt, (Scenario.create "Exam Monday" "2024-12-31T23:59:59Z" None "t1"
            Scenario.clock Scenario.store).1 = Raise (HTTPException 400 dt))
  ∧ Scenario.create "Exam Monday" "2025-06-30T23:59:59Z"
      (Some "2025-01-02T00:00:00Z") "t1" Scenario.clock Scenario.store
    = (Ok {| id := "000000000000000000000002";
             fields := created_document "Exam Monday" "2025-06-30T23:59:59Z"
                         (Some "2025-01-02T00:00:00Z") "t1" Scenario.clock |},
       with_announcements Scenario.store
         (<[2%N := created_document "Exam Monday" "2025-06-30T23:59:59Z"
                     (Some "2025-01-02T00:00:00Z") "t1" Scenario.clock]>
            (announcements_collection Scenario.store))).
Proof.
  assert (is_Some (teachers_collection Scenario.store !! "t1")) as Ht
    by (vm_compute; eauto).
  split.
  - destruct (C2_create_bad_request Oid.str Iso.fromisoformat
               "Exam Monday" "2024-12-31T23:59:59Z" None "t1"
               Scenario.clock Scenario.store Ht) as [Hiff _].
    apply Hiff. right. left.
    exists (mk_datetime 2024 12 31 23 59 59 0 (Some 0)).
    split; vm_compute; reflexivity.
  - destruct (C2_create_bad_request Oid.str Iso.fromisoformat
               "Exam Monday" "2025-06-30T23:59:59Z" (Some "2025-01-02T00:00:00Z") "t1"
               Scenario.clock Scenario.store Ht) as [_ Hok].
    apply Hok.
    + intros [(msg & Hm)|[(exp & He & Hle)|[(_ & msg & Hm)|(_ & st & exp & Hs & He & Hge)]]].
      * vm_compute in Hm. discriminate.
      * vm_compute in He. injection He as <-. vm_compute in Hle. discriminate.
      * vm_compute in Hm. discriminate.
      * vm_compute in Hs, He. injection Hs as <-. injection He as <-.
        vm_compute in Hge. discriminate.
    + intros _ st exp Hs He. vm_compute in Hs, He.
      injection Hs as <-. injection He as <-. done.
    + vm_compute. reflexivity.
Defined.

(** C2, as stated, fails twice. An empty [start_date] is provided and
    does not parse, yet the request is served; and a start date
    without offset next to an expiration date with one makes the
    comparison raise a [TypeError], which is neither a BadRequest nor
    an insertion. *)
Lemma C2_counterexample :
  (Iso.fromisoformat (Str.replace "Z" "+00:00" "") = inl "Invalid isoformat string: ''"
   ∧ ∃ a db', Scenario.create "Exam Monday" "2099-01-01T00:00:00Z" (Some "") "t1"
                Scenario.clock Scenario.store = (Ok a, db')
              ∧ announcements_collection db' !! 2%N = Some (fields a)
              ∧ start_date (fields a) = Str "")
  ∧ Scenario.create "Exam Monday" "2099-01-01T00:00:00Z" (Some "2098-01-01T00:00:00") "t1"
      Scenario.clock Scenario.store
    = (Raise (TypeError "can't compare offset-naive and offset-aware datetimes"),
       Scenario.store).
Proof.
  split; [split; [vm_compute; reflexivity|]|vm_compute; reflexivity].
  eexists _, _. split; [vm_compute; reflexivity|]. split; vm_compute; reflexivity.
Qed.

(** C4, as stated, fails: an expiration date in the past, with offset,
    and a start date a month earlier, without offset, both parse; the
    comparison of the two raises a [TypeError] and nothing is
    stored. *)
Lemma C4_counterexample :
  parse Iso.fromisoformat "2024-06-30T12:00:00Z"
  = inr (mk_datetime 2024 6 30 12 0 0 0 (Some 0))
  ∧ parse Iso.fromisoformat "2024-06-01T08:00:00"
    = inr (mk_datetime 2024 6 1 8 0 0 0 None)
  ∧ announcements_collection Scenario.store !! Scenario.exam_id = Some Scenario.exam
  ∧ Scenario.update "000000000000000000000001" "Exam Friday (held)"
      "2024-06-30T12:00:00Z" (Some "2024-06-01T08:00:00") "t1"
      Scenario.clock Scenario.store
    = (Raise (TypeError "can't compare offset-naive and offset-aware datetimes"),
       Scenario.store).
Proof. split_and!; vm_compute; reflexivity. Qed.

Lemma C4_update_accepts_past_expiration_witness :
  (∃ a db', Scenario.update "000000000000000000000001" "Exam Friday (held)"
              "2024-06-30T12:00:00Z" (Some "2024-06-01T08:00:00Z") "t1"
              Scenario.clock Scenario.store = (Ok a, db')
            ∧ id a = "000000000000000000000001"
            ∧ expiration_date (fields a) = "2024-06-30T12:00:00Z"
            ∧ announcements_collection db' !! Scenario.exam_id = Some (fields a))
  ∧ Scenario.create "Exam Friday (held)" "2024-06-30T12:00:00Z"
      (Some "2024-06-01T08:00:00Z") "t1" Scenario.clock Scenario.store
    = (Raise (HTTPException 400 "Expiration date must be in the future"),
       Scenario.store).
Proof.
  apply (C4_update_accepts_past_expiration Oid.init Oid.str Iso.fromisoformat
           "000000000000000000000001" "Exam Friday (held)"
           "2024-06-30T12:00:00Z" (Some "2024-06-01T08:00:00Z") "t1"
           Scenario.clock Scenario.store Scenario.exam_id Scenario.exam
           (mk_datetime 2024 6 30 12 0 0 0 (Some 0))).
  - vm_compute. eauto.
  - vm_compute. reflexivity.
  - vm_compute. reflexivity.
  - vm_compute. reflexivity.
  - vm_compute. reflexivity.
  - intros _. exists (mk_datetime 2024 6 1 8 0 0 0 (Some 0)).
    split; vm_compute; reflexivity.
Defined.

Lemma C5_update_frame_witness :
  ∃ oid d,
    Oid.init "000000000000000000000001" = Some oid
    ∧ announcements_collection Scenario.store !! oid = Some d
    ∧ announcements_collection
        (Scenario.update "000000000000000000000001" "Exam Monday"
           "2025-06-30T23:59:59Z" None "t1" Scenario.clock Scenario.store).2
      !! oid
      = Some {| message := "Exam Monday"; start_date := Null;
                expiration_date := "2025-06-30T23:59:59Z";
                created_by := created_by d; created_at := created_at d |}.
Proof.
  destruct (C5_update_frame Oid.init Oid.str Iso.fromisoformat
              "000000000000000000000001" "Exam Monday" "2025-06-30T23:59:59Z" None "t1"
              Scenario.clock Scenario.store
              {| id := "000000000000000000000001";
                 fields := updated_document "Exam Monday" "2025-06-30T23:59:59Z"
                             None Scenario.exam |}
              (with_announcements Scenario.store
                 {[ Scenario.exam_id :=
                      updated_document "Exam Monday" "2025-06-30T23:59:59Z"
                        None Scenario.exam ]}))
    as (oid & d & Hi & Hd & Hd' & _ & _ & _ & _ & Hby & Hat & _).
  - vm_compute. reflexivity.
  - exists oid, d. split_and!; [done..|].
    vm_compute in Hi. injection Hi as <-.
    vm_compute in Hd. injection Hd as <-.
    vm_compute. reflexivity.
Defined.

Lemma C6_create_list_roundtrip_witness :
  ∃ l, Scenario.list_ false Scenario.clock
         (Scenario.create "Exam Monday" "2025-06-30T23:59:59Z"
            (Some "2025-01-02T00:00:00Z") "t1" Scenario.clock Scenario.store).2
       = (Ok l,
          (Scenario.create "Exam Monday" "2025-06-30T23:59:59Z"
             (Some "2025-01-02T00:00:00Z") "t1" Scenario.clock Scenario.store).2)
       ∧ {| id := "000000000000000000000002";
            fields := {| message := "Exam Monday";
                         start_date := Str "2025-01-02T00:00:00Z";
                         expiration_date := "2025-06-30T23:59:59Z";
                         created_by := "t1";
                         created_at := "2025-01-01T00:00:00Z" |} |} ∈ l.
Proof.
  destruct (C6_create_list_roundtrip Oid.str Iso.fromisoformat
              "Exam Monday" "2025-06-30T23:59:59Z" (Some "2025-01-02T00:00:00Z") "t1"
              Scenario.clock Scenario.store
              {| id := "000000000000000000000002";
                 fields := {| message := "Exam Monday";
                              start_date := Str "2025-01-02T00:00:00Z";
                              expiration_date := "2025-06-30T23:59:59Z";
                              created_by := "t1";
                              created_at := "2025-01-01T00:00:00Z" |} |}
              (Scenario.create "Exam Monday" "2025-06-30T23:59:59Z"
                 (Some "2025-01-02T00:00:00Z") "t1" Scenario.clock Scenario.store).2)
    as (_ & _ & _ & _ & _ & Hlist).
  - vm_compute. reflexivity.
  - apply (Hlist Scenario.clock).
Defined.

Lemma C7_delete_not_found_witness :
  Scenario.delete_ "0000000000000000000000ff" "t1" Scenario.clock Scenario.store
  = (Raise (HTTPException 404 "Announcement not found"), Scenario.store)
  ∧ ∃ db', Scenario.delete_ "000000000000000000000001" "t1" Scenario.clock Scenario.store
           = (Ok "Announcement deleted successfully", db')
           ∧ announcements_collection db' !! Scenario.exam_id = None
           ∧ Scenario.delete_ "000000000000000000000001" "t1" Scenario.clock db'
             = (Raise (HTTPException 404 "Announcement not found"), db').
Proof.
  assert (is_Some (teachers_collection Scenario.store !! "t1")) as Ht
    by (vm_compute; eauto).
  split.
  - destruct (C7_delete_not_found Oid.init "0000000000000000000000ff" "t1"
                Scenario.clock Scenario.store 255%N Ht) as (_ & H404 & _).
    + vm_compute. reflexivity.
    + apply H404. vm_compute. reflexivity.
  - destruct (C7_delete_not_found Oid.init "000000000000000000000001" "t1"
                Scenario.clock Scenario.store Scenario.exam_id Ht) as (_ & _ & Hdel).
    + vm_compute. reflexivity.
    + destruct (Hdel Scenario.exam) as (db' & Hr & _ & Hgone & _ & _ & Htwice).
      * vm_compute. reflexivity.
      * exists db'. split; [exact Hr|]. split; [exact Hgone|]. apply Htwice.
Defined.

Lemma C9_update_internal_error_unreachable_witness :
  (∃ r, (update_one Scenario.exam_id "Exam Monday" Null "2025-06-30T23:59:59Z"
           Scenario.clock Scenario.store).1 = Ok r
        ∧ Mongo.matched_count r = 1
        ∧ (Mongo.modified_count r =? 0) && (Mongo.matched_count r =? 0) = false)
  ∧ ∀ dt, (Scenario.update "000000000000000000000001" "Exam Monday"
             "2025-06-30T23:59:59Z" None "t1" Scenario.clock Scenario.store).1
          ≠ Raise (HTTPException 500 dt).
Proof.
  destruct (C9_update_internal_error_unreachable Oid.init Oid.str Iso.fromisoformat
              Scenario.exam_id (Scenario.exam_id, Scenario.exam)
              Scenario.clock Scenario.store) as [Hone Hnever].
  - vm_compute. reflexivity.
  - split; [apply Hone|]. intros dt. apply Hnever.
Defined.

Lemma C10_empty_start_date_is_absent_witness :
  ∃ a db',
    Scenario.create "Exam Monday" "2025-06-30T23:59:59Z" (Some "") "t1"
      Scenario.clock Scenario.store = (Ok a, db')
    ∧ start_date (fields a) = Str ""
    ∧ announcements_collection db' !! 2%N = Some (fields a).
Proof.
  destruct (C10_empty_start_date_is_absent Oid.init Oid.str Iso.fromisoformat
              "Exam Monday" "2025-06-30T23:59:59Z" "t1" Scenario.clock Scenario.store)
    as (_ & _ & Hstored & _ & Hruns & _).
  destruct (Hruns (mk_datetime 2025 6 30 23 59 59 0 (Some 0))) as (a & db' & Hr).
  - vm_compute. eauto.
  - vm_compute. reflexivity.
  - vm_compute. reflexivity.
  - vm_compute. reflexivity.
  - exists a, db'. split; [done|]. by apply Hstored.
Defined.

Lemma identifier_errors_witness :
  Scenario.delete_ "exam" "t1" Scenario.clock Scenario.store
  = (Raise (HTTPException 400 "Invalid announcement ID"), Scenario.store)
  ∧ Scenario.update "0000000000000000000000ff" "Exam Monday" "someday" None "t1"
      Scenario.clock Scenario.store
    = (Raise (HTTPException 404 "Announcement not found"), Scenario.store).
Proof.
  assert (is_Some (teachers_collection Scenario.store !! "t1")) as Ht
    by (vm_compute; eauto).
  split.
  - destruct (identifier_errors Oid.init Oid.str Iso.fromisoformat
                "exam" "t1" Scenario.clock Scenario.store Ht) as [Hbad _].
    apply Hbad. vm_compute. reflexivity.
  - destruct (identifier_errors Oid.init Oid.str Iso.fromisoformat
                "0000000000000000000000ff" "t1" Scenario.clock Scenario.store Ht)
      as [_ Hmissing].
    apply (Hmissing 255%N); vm_compute; reflexivity.
Defined.

Lemma update_bad_request_witness :
  ∃ dt, (Scenario.update "000000000000000000000001" "Exam Monday"
           "2025-06-30T23:59:59Z" (Some "2025-07-01T00:00:00Z") "t1"
           Scenario.clock Scenario.store).1 = Raise (HTTPException 400 dt).
Proof.
  apply (update_bad_request Oid.init Oid.str Iso.fromisoformat
           "000000000000000000000001" "Exam Monday"
           "2025-06-30T23:59:59Z" (Some "2025-07-01T00:00:00Z") "t1"
           Scenario.clock Scenario.store Scenario.exam_id Scenario.exam).
  - vm_compute. eauto.
  - vm_compute. reflexivity.
  - vm_compute. reflexivity.
  - right. right. split; [vm_compute; reflexivity|].
    exists (mk_datetime 2025 7 1 0 0 0 0 (Some 0)),
           (mk_datetime 2025 6 30 23 59 59 0 (Some 0)).
    split_and!; vm_compute; reflexivity.
Defined.

Lemma create_frame_witness :
  announcements_collection
    (Scenario.create "Exam Monday" "2025-06-30T23:59:59Z" None "t1"
       Scenario.clock Scenario.store).2 !! 2%N
  = Some (created_document "Exam Monday" "2025-06-30T23:59:59Z" None "t1"
            Scenario.clock)
  ∧ size (announcements_collection
            (Scenario.create "Exam Monday" "2025-06-30T23:59:59Z" None "t1"
               Scenario.clock Scenario.store).2) = 2%nat.
Proof.
  destruct (create_frame Oid.str Iso.fromisoformat
              "Exam Monday" "2025-06-30T23:59:59Z" None "t1"
              Scenario.clock Scenario.store
              {| id := "000000000000000000000002";
                 fields := created_document "Exam Monday" "2025-06-30T23:59:59Z"
                             None "t1" Scenario.clock |}
              (Scenario.create "Exam Monday" "2025-06-30T23:59:59Z" None "t1"
                 Scenario.clock Scenario.store).2)
    as (_ & _ & Hstored & _ & Hsize & _).
  - vm_compute. reflexivity.
  - split; [exact Hstored|]. rewrite Hsize. vm_compute. reflexivity.
Defined.

Lemma delete_frame_witness :
  ∃ oid d,
    Oid.init "000000000000000000000001" = Some oid
    ∧ announcements_collection Scenario.store !! oid = Some d
    ∧ announcements_collection
        (Scenario.delete_ "000000000000000000000001" "t1"
           Scenario.clock Scenario.store).2 !! oid = None.
Proof.
  destruct (delete_frame Oid.init "000000000000000000000001" "t1"
              Scenario.clock Scenario.store
              "Announcement deleted successfully"
              (Scenario.delete_ "000000000000000000000001" "t1"
                 Scenario.clock Scenario.store).2)
    as (_ & oid & d & Hi & Hd & Hgone & _).
  - vm_compute. reflexivity.
  - by exists oid, d.
Defined.

Lemma create_then_delete_witness :
  Scenario.delete_ "000000000000000000000002" "t1" Scenario.clock
    (Scenario.create "Exam Monday" "2025-06-30T23:59:59Z" None "t1"
       Scenario.clock Scenario.store).2
  = (Ok "Announcement deleted successfully", Scenario.store).
Proof.
  apply (create_then_delete Oid.init Oid.str Iso.fromisoformat
           "Exam Monday" "2025-06-30T23:59:59Z" None "t1"
           Scenario.clock Scenario.store
           {| id := "000000000000000000000002";
              fields := created_document "Exam Monday" "2025-06-30T23:59:59Z"
                          None "t1" Scenario.clock |}
           (Scenario.create "Exam Monday" "2025-06-30T23:59:59Z" None "t1"
              Scenario.clock Scenario.store).2
           Scenario.clock).
  - vm_compute. reflexivity.
  - vm_compute. reflexivity.
Defined.


Lemma naive_against_aware_dates_witness :
  Scenario.create "Exam Monday" "2099-01-01T00:00:00Z"
    (Some "2098-01-01T00:00:00") "t1" Scenario.clock Scenario.store
  = (Raise (TypeError "can't compare offset-naive and offset-aware datetimes"),
     Scenario.store)
  ∧ Scenario.update "000000000000000000000001" "Exam Monday" "2099-01-01T00:00:00Z"
      (Some "2098-01-01T00:00:00") "t1" Scenario.clock Scenario.store
    = (Raise (TypeError "can't compare offset-naive and offset-aware datetimes"),
       Scenario.store).
Proof.
  destruct (naive_against_aware_dates Oid.init Oid.str Iso.fromisoformat
              "000000000000000000000001" "Exam Monday" "2099-01-01T00:00:00Z"
              (Some "2098-01-01T00:00:00") "t1" Scenario.clock Scenario.store
              (mk_datetime 2099 1 1 0 0 0 0 (Some 0))
              (mk_datetime 2098 1 1 0 0 0 0 None))
    as [Hcreate Hupdate].
  - vm_compute. eauto.
  - vm_compute. reflexivity.
  - vm_compute. reflexivity.
  - vm_compute. reflexivity.
  - vm_compute. split; [intros _ Hx; discriminate Hx|intros _; reflexivity].
  - split.
    + apply Hcreate. vm_compute. reflexivity.
    + apply (Hupdate Scenario.exam_id Scenario.exam); vm_compute; reflexivity.
Defined.

Lemma create_then_update_witness :
  ∃ a' db2,
    Scenario.update "000000000000000000000002" "Exam Tuesday"
      "2025-07-31T23:59:59Z" None "t1" Scenario.clock
      (Scenario.create "Exam Monday" "2025-06-30T23:59:59Z" None "t1"
         Scenario.clock Scenario.store).2 = (Ok a', db2)
    ∧ id a' = "000000000000000000000002"
    ∧ message (fields a') = "Exam Tuesday"
    ∧ created_by (fields a') = "t1".
Proof.
  destruct (create_then_update Oid.init Oid.str Iso.fromisoformat
              "Exam Monday" "2025-06-30T23:59:59Z" None "t1"
              Scenario.clock Scenario.store
              {| id := "000000000000000000000002";
                 fields := created_document "Exam Monday" "2025-06-30T23:59:59Z"
                             None "t1" Scenario.clock |}
              (Scenario.create "Exam Monday" "2025-06-30T23:59:59Z" None "t1"
                 Scenario.clock Scenario.store).2
              "Exam Tuesday" "2025-07-31T23:59:59Z" None Scenario.clock
              (mk_datetime 2025 7 31 23 59 59 0 (Some 0)))
    as (a' & db2 & Hr & Hid & Hm & Hby & _).
  - vm_compute. reflexivity.
  - vm_compute. reflexivity.
  - vm_compute. reflexivity.
  - intros Htr. vm_compute in Htr. discriminate Htr.
  - exists a', db2. by split_and!.
Defined.
